(** * HTML report templates to JSON: the extractor and its callers

    A shallow embedding of the three Python modules of the repository

      - [src/converter.py]                          (module [Converter])
      - [src/radreportconverter/converter.py]       (module [RadReport])
      - [src/radreportconverter/fastapi_converter.py] (module [FastApi])

    Python values are embedded as they are built by the code: strings are
    sequences of code points, the dictionaries and lists that make up the
    result are kept as insertion-ordered association lists and lists. *)

From Stdlib Require Import List NArith ZArith Lia ZifyN Bool String Ascii.
From Stdlib Require DecimalFacts DecimalPos DecimalN.
Import ListNotations.

Set Implicit Arguments.
Set Warnings "-register-all,-abstract-large-number".

(* ================================================================== *)
(** * Python strings and the built-ins the code calls on them *)
(* ================================================================== *)

Module Py.

(** A Python [str] is a sequence of Unicode code points. *)
Definition char := N.
Definition str := list char.
Definition bytes := list N.

(** String literals of the source. *)
Definition lit (s : string) : str :=
  map N_of_ascii (list_ascii_of_string s).

Fixpoint eqb (a b : str) : bool :=
  match a, b with
  | [], [] => true
  | x :: a', y :: b' => N.eqb x y && eqb a' b'
  | _, _ => false
  end.

(** Truthiness of a string: [if s:] holds for the non-empty ones. *)
Definition truthy (s : str) : bool :=
  match s with [] => false | _ :: _ => true end.

(** The characters [str.strip()] removes: those for which
    [str.isspace] holds. *)
Definition isspace (c : char) : bool :=
  (((9 <=? c) && (c <=? 13)) || ((28 <=? c) && (c <=? 32))
   || (c =? 133) || (c =? 160) || (c =? 5760)
   || ((8192 <=? c) && (c <=? 8202))
   || (c =? 8232) || (c =? 8233) || (c =? 8239) || (c =? 8287)
   || (c =? 12288))%N.

Fixpoint lstrip (s : str) : str :=
  match s with
  | c :: s' => if isspace c then lstrip s' else s
  | [] => []
  end.

Definition rstrip (s : str) : str := rev (lstrip (rev s)).

(** [s.strip()] *)
Definition strip (s : str) : str := rstrip (lstrip s).

Fixpoint startswith (s prefix : str) : bool :=
  match prefix, s with
  | [], _ => true
  | p :: prefix', c :: s' => N.eqb p c && startswith s' prefix'
  | _ :: _, [] => false
  end.

(** What follows [prefix] in [s], when [s] starts with it. *)
Fixpoint strip_prefix (prefix s : str) : option str :=
  match prefix, s with
  | [], _ => Some s
  | p :: prefix', c :: s' => if N.eqb p c then strip_prefix prefix' s' else None
  | _ :: _, [] => None
  end.

(** [s.endswith(suffix)] *)
Definition endswith (s suffix : str) : bool :=
  startswith (rev s) (rev suffix).

(** [s.replace(old, new)] for a non-empty [old]: the occurrences of [old]
    are replaced from left to right, without overlap.  [skip] counts the
    characters of an occurrence that are still to be dropped. *)
Fixpoint replace_from (old new : str) (skip : nat) (s : str) : str :=
  match s with
  | [] => []
  | c :: s' =>
      match skip with
      | S k => replace_from old new k s'
      | O =>
          if startswith s old
          then new ++ replace_from old new (List.length old - 1) s'
          else c :: replace_from old new 0 s'
      end
  end.

Definition replace (s old new : str) : str := replace_from old new 0 s.

(** Case mapping of [str.title()].  The letters A-Z and a-z are mapped;
    the case tables of Unicode are not part of this development, and
    cased characters outside ASCII are passed through unchanged. *)
Definition islower (c : char) : bool := ((97 <=? c) && (c <=? 122))%N.
Definition isupper (c : char) : bool := ((65 <=? c) && (c <=? 90))%N.
Definition toupper (c : char) : char := if islower c then (c - 32)%N else c.
Definition tolower (c : char) : char := if isupper c then (c + 32)%N else c.

Fixpoint title_from (previous_is_cased : bool) (s : str) : str :=
  match s with
  | [] => []
  | c :: s' =>
      (if previous_is_cased then tolower c else toupper c)
        :: title_from (islower c || isupper c) s'
  end.

(** [s.title()] *)
Definition title (s : str) : str := title_from false s.

(** The decimal digits of a non-negative [int], as [f"{n}"] and
    [json.dump] print it. *)
Fixpoint digits (u : Decimal.uint) : str :=
  match u with
  | Decimal.Nil => []
  | Decimal.D0 u => 48%N :: digits u
  | Decimal.D1 u => 49%N :: digits u
  | Decimal.D2 u => 50%N :: digits u
  | Decimal.D3 u => 51%N :: digits u
  | Decimal.D4 u => 52%N :: digits u
  | Decimal.D5 u => 53%N :: digits u
  | Decimal.D6 u => 54%N :: digits u
  | Decimal.D7 u => 55%N :: digits u
  | Decimal.D8 u => 56%N :: digits u
  | Decimal.D9 u => 57%N :: digits u
  end.

Definition str_of_nat (n : nat) : str := digits (Nat.to_uint n).

(** The values the extractor builds: [None], [int], [str], [list] and
    [dict] with string keys.  A [dict] keeps its keys in insertion
    order. *)
Inductive pyval :=
| PNone
| PInt (z : Z)
| PStr (s : str)
| PList (l : list pyval)
| PDict (d : list (str * pyval)).

Definition dict := list (str * pyval).

(** [d.get(key)] *)
Fixpoint dict_get (d : dict) (key : str) : option pyval :=
  match d with
  | [] => None
  | (k, v) :: d' => if eqb k key then Some v else dict_get d' key
  end.

(** [d[key] = value]: an existing key keeps its place, a new one goes
    last. *)
Fixpoint dict_set (d : dict) (key : str) (value : pyval) : dict :=
  match d with
  | [] => [(key, value)]
  | (k, v) :: d' =>
      if eqb k key then (k, value) :: d' else (k, v) :: dict_set d' key value
  end.

Definition keys (d : dict) : list str := map fst d.

End Py.

(* ================================================================== *)
(** * The parsed document: what the code asks of BeautifulSoup *)
(* ================================================================== *)

Module Bs4.
Import Py.

(** The tree [BeautifulSoup(html_content, 'html.parser')] returns.  The
    document itself is a [Tag] (named [[document]]) whose contents are the
    top-level nodes.  Comments, doctypes and the like are strings that
    [.text] leaves out. *)
Inductive node :=
| NavigableString (s : str)
| Comment (s : str)
| Tag (name : str) (attrs : list (str * str)) (contents : list node).

(** What is taken from the installed library rather than from the
    repository: the parser, and whether an attribute filter with the value
    [''] also selects the tags that lack the attribute (releases of the
    library differ on this). *)
Class BeautifulSoup := {
  html_parser : str -> node;
  absent_matches_empty : bool
}.

(** All nodes below [n], in document order. *)
Fixpoint descendants (n : node) : list node :=
  match n with
  | Tag _ _ contents => flat_map (fun c => c :: descendants c) contents
  | _ => []
  end.

(** [n.text]: the strings below [n], concatenated. *)
Fixpoint text (n : node) : str :=
  match n with
  | NavigableString s => s
  | Comment _ => []
  | Tag _ _ contents => flat_map text contents
  end.

Fixpoint lookup (attrs : list (str * str)) (key : str) : option str :=
  match attrs with
  | [] => None
  | (k, v) :: attrs' => if eqb k key then Some v else lookup attrs' key
  end.

(** [tag.get(key)] *)
Definition get (n : node) (key : str) : option str :=
  match n with
  | Tag _ attrs _ => lookup attrs key
  | _ => None
  end.

(** [tag.get(key, default)] *)
Definition get_default (n : node) (key default : str) : str :=
  match get n key with
  | Some v => v
  | None => default
  end.

Definition is_tag (name : str) (n : node) : bool :=
  match n with
  | Tag nm _ _ => eqb nm name
  | _ => false
  end.

Section Queries.
Context {bs : BeautifulSoup}.

(** One entry [{key: wanted}] of an attribute filter. *)
Definition attr_matches (value : option str) (wanted : str) : bool :=
  match value with
  | Some v => eqb v wanted
  | None => absent_matches_empty && negb (truthy wanted)
  end.

Definition selected (name : str) (filter : list (str * str)) (n : node)
  : bool :=
  is_tag name n
  && forallb (fun kw => attr_matches (get n (fst kw)) (snd kw)) filter.

(** [n.find_all(name, filter)] *)
Definition find_all (n : node) (name : str) (filter : list (str * str))
  : list node :=
  List.filter (selected name filter) (descendants n).

(** [n.find(name, filter)]: the first match in document order, if any. *)
Definition find (n : node) (name : str) (filter : list (str * str))
  : option node :=
  hd_error (find_all n name filter).

End Queries.

End Bs4.

(* ================================================================== *)
(** * Text files: the UTF-8 and Latin-1 codecs *)
(* ================================================================== *)

Module Codec.
Import Py.
Local Open Scope N_scope.

Definition is_surrogate (c : char) : bool := (0xD800 <=? c) && (c <=? 0xDFFF).

(** [c.encode('utf-8')] for one code point; [None] stands for
    [UnicodeEncodeError] (a surrogate cannot be encoded). *)
Definition utf8_encode_char (c : char) : option bytes :=
  if c <? 0x80 then Some [c]
  else if c <? 0x800 then Some [0xC0 + c / 64; 0x80 + c mod 64]
  else if c <? 0x10000 then
    if is_surrogate c then None
    else Some [0xE0 + c / 4096; 0x80 + (c / 64) mod 64; 0x80 + c mod 64]
  else if c <? 0x110000 then
    Some [0xF0 + c / 262144; 0x80 + (c / 4096) mod 64;
          0x80 + (c / 64) mod 64; 0x80 + c mod 64]
  else None.

Fixpoint utf8_encode (s : str) : option bytes :=
  match s with
  | [] => Some []
  | c :: s' =>
      match utf8_encode_char c, utf8_encode s' with
      | Some b, Some bs => Some (b ++ bs)
      | _, _ => None
      end
  end.

Definition is_continuation (b : N) : bool := (0x80 <=? b) && (b <? 0xC0).

(** [b.decode('utf-8')]; [None] stands for [UnicodeDecodeError]: stray or
    missing continuation bytes, overlong forms, surrogates and values
    above U+10FFFF are refused. *)
Fixpoint utf8_decode (b : bytes) : option str :=
  match b with
  | [] => Some []
  | b0 :: r0 =>
      if b0 <? 0x80 then option_map (cons b0) (utf8_decode r0)
      else if b0 <? 0xC0 then None
      else if b0 <? 0xE0 then
        match r0 with
        | b1 :: r1 =>
            let c := (b0 - 0xC0) * 64 + (b1 - 0x80) in
            if is_continuation b1 && (0x80 <=? c)
            then option_map (cons c) (utf8_decode r1)
            else None
        | _ => None
        end
      else if b0 <? 0xF0 then
        match r0 with
        | b1 :: b2 :: r2 =>
            let c := (b0 - 0xE0) * 4096 + (b1 - 0x80) * 64 + (b2 - 0x80) in
            if is_continuation b1 && is_continuation b2
               && (0x800 <=? c) && negb (is_surrogate c)
            then option_map (cons c) (utf8_decode r2)
            else None
        | _ => None
        end
      else if b0 <? 0xF8 then
        match r0 with
        | b1 :: b2 :: b3 :: r3 =>
            let c := (b0 - 0xF0) * 262144 + (b1 - 0x80) * 4096
                     + (b2 - 0x80) * 64 + (b3 - 0x80) in
            if is_continuation b1 && is_continuation b2 && is_continuation b3
               && (0x10000 <=? c) && (c <? 0x110000)
            then option_map (cons c) (utf8_decode r3)
            else None
        | _ => None
        end
      else None
  end.

(** [b.decode('latin-1')]: every byte is its own code point. *)
Definition latin1_decode (b : bytes) : str := b.

(** Reading in text mode turns the line endings CR LF and CR into LF. *)
Fixpoint universal_newlines (s : str) : str :=
  match s with
  | [] => []
  | c :: s' =>
      if c =? 13 then
        10 :: match s' with
              | d :: s'' =>
                  if d =? 10 then universal_newlines s''
                  else universal_newlines s'
              | [] => []
              end
      else c :: universal_newlines s'
  end.

End Codec.

(* ================================================================== *)
(** * The file system and the exceptions of the callers *)
(* ================================================================== *)

Module Os.
Import Py.

Inductive exn :=
| FileNotFoundError (message : str)
| ValueError (message : str)
| UnboundLocalError (variable : str)
| UnicodeEncodeError.

Inductive result (A : Type) :=
| Ok (a : A)
| Raise (e : exn).
Arguments Ok {A} a.
Arguments Raise {A} e.

(** Regular files by absolute path (POSIX paths; two paths name the same
    file when they are the same string). *)
Definition fs := list (str * bytes).

(** Computations that read and write files and may raise.  A raise keeps
    the files as they are at that point, as [try]/[except] finds them. *)
Definition M (A : Type) : Type := fs -> fs * result A.

Definition ret {A} (a : A) : M A := fun s => (s, Ok a).

Definition bind {A B} (m : M A) (k : A -> M B) : M B :=
  fun s =>
    match m s with
    | (s', Ok a) => k a s'
    | (s', Raise e) => (s', Raise e)
    end.

Definition raise {A} (e : exn) : M A := fun s => (s, Raise e).

(** [try: m  except Exception as e: handler(e)] *)
Definition try_except {A} (m : M A) (handler : exn -> M A) : M A :=
  fun s =>
    match m s with
    | (s', Ok a) => (s', Ok a)
    | (s', Raise e) => handler e s'
    end.

(** What a module knows of the process it runs in:
    [os.path.dirname(os.path.abspath(__file__))] and the working
    directory that relative paths are resolved against. *)
Class Process := {
  script_dir : str;
  cwd : str
}.

(** [os.path.join(a, b)] *)
Definition join (a b : str) : str :=
  if startswith b (lit "/") then b
  else if negb (truthy a) || endswith a (lit "/") then a ++ b
  else a ++ lit "/" ++ b.

Fixpoint file_at (s : fs) (path : str) : option bytes :=
  match s with
  | [] => None
  | (p, content) :: s' => if eqb p path then Some content else file_at s' path
  end.

Fixpoint store (s : fs) (path : str) (content : bytes) : fs :=
  match s with
  | [] => [(path, content)]
  | (p, c) :: s' =>
      if eqb p path then (p, content) :: s' else (p, c) :: store s' path content
  end.

(** The entry of directory [d] that [path] is, if it lies directly in
    [d]. *)
Definition entry_of (d path : str) : option str :=
  match strip_prefix (join d []) path with
  | Some name =>
      if truthy name && negb (existsb (N.eqb 47) name) then Some name
      else None
  | None => None
  end.

Section Calls.
Context {proc : Process}.

(** A path as the system sees it. *)
Definition absolute (path : str) : str := join cwd path.

(** [os.path.exists(path)] *)
Definition exists_ (path : str) : M bool :=
  fun s => (s, Ok (match file_at s (absolute path) with
                   | Some _ => true
                   | None => false
                   end)).

(** [os.listdir(d)] *)
Definition listdir (d : str) : M (list str) :=
  fun s =>
    (s, Ok (flat_map (fun f => match entry_of (absolute d) (fst f) with
                               | Some name => [name]
                               | None => []
                               end) s)).

(** The text of a file whose bytes are [content], as the code reads it:
    [file.read()] with [encoding='utf-8'], and on [UnicodeDecodeError]
    the same with [encoding='latin-1']. *)
Definition decoded (content : bytes) : str :=
  Codec.universal_newlines
    match Codec.utf8_decode content with
    | Some t => t
    | None => Codec.latin1_decode content
    end.

(** [with open(path, 'r', encoding=...) as file: file.read()] with the
    fallback above.  The callers read only files they found to exist; a
    missing file raises [FileNotFoundError]. *)
Definition read_text (path : str) : M str :=
  fun s =>
    match file_at s (absolute path) with
    | Some content => (s, Ok (decoded content))
    | None => (s, Raise (FileNotFoundError path))
    end.

(** The bytes that reach the file when the chunks are written one after
    the other to a file opened with [encoding='utf-8'], and whether all
    of them could be encoded. *)
Fixpoint encode_chunks (chunks : list str) : bytes * bool :=
  match chunks with
  | [] => ([], true)
  | chunk :: chunks' =>
      match Codec.utf8_encode chunk with
      | Some b => let (bs, ok) := encode_chunks chunks' in (b ++ bs, ok)
      | None => ([], false)
      end
  end.

(** [with open(path, 'w', encoding='utf-8') as f:] followed by one
    [f.write] per chunk.  The file is created or truncated; a chunk that
    cannot be encoded raises, and the file keeps what was written before
    it. *)
Definition write_chunks (path : str) (chunks : list str) : M unit :=
  fun s =>
    let (content, ok) := encode_chunks chunks in
    (store s (absolute path) content,
     if ok then Ok tt else Raise UnicodeEncodeError).

End Calls.

End Os.

Declare Scope py_scope.
Delimit Scope py_scope with py.
Notation "x <- m ;; k" := (Os.bind m (fun x => k))
  (at level 61, m at next level, right associativity) : py_scope.
Notation "m ;; k" := (Os.bind m (fun _ => k))
  (at level 61, right associativity) : py_scope.

(* ================================================================== *)
(** * The [json] module: [json.dump(..., indent=2, ensure_ascii=False)]
      and [json.loads] *)
(* ================================================================== *)

Module Json.
Import Py.
Local Open Scope N_scope.

(** ** Encoding *)

Definition hex_digit (n : N) : char := if n <? 10 then 48 + n else 87 + n.

(** One character inside a string literal.  With [ensure_ascii=False]
    only the quote, the backslash and the control characters are
    escaped. *)
Definition escape (c : char) : str :=
  if c =? 34 then [92; 34]
  else if c =? 92 then [92; 92]
  else if c =? 10 then [92; 110]
  else if c =? 13 then [92; 114]
  else if c =? 9 then [92; 116]
  else if c =? 8 then [92; 98]
  else if c =? 12 then [92; 102]
  else if c <? 32 then [92; 117; 48; 48; hex_digit (c / 16); hex_digit (c mod 16)]
  else [c].

Definition encode_basestring (s : str) : str :=
  34 :: flat_map escape s ++ [34].

(** [int.__repr__] *)
Definition intstr (z : Z) : str :=
  match z with
  | Zneg p => 45 :: digits (Pos.to_uint p)
  | _ => digits (N.to_uint (Z.to_N z))
  end.

(** A line break followed by the indentation of [level]. *)
Definition newline_indent (level : nat) : str :=
  10 :: repeat 32 (2 * level)%nat.

Section Chunks.
(** The encoder for the values inside a container, and the separator
    between its items: a comma and the line break with the indentation of
    the items. *)
Variable encode_nested : pyval -> list str.
Variable separator : str.

(** The loop of [_iterencode_list]: [buf] is the opening bracket with the
    first line break before the first item and the separator from then
    on; it is yielded together with a scalar item and on its own before a
    nested one. *)
Fixpoint list_chunks (buf : str) (lst : list pyval) : list str :=
  match lst with
  | [] => []
  | value :: lst' =>
      match value with
      | PNone => [buf ++ lit "null"]
      | PInt z => [buf ++ intstr z]
      | PStr s => [buf ++ encode_basestring s]
      | _ => buf :: encode_nested value
      end ++ list_chunks separator lst'
  end.

(** The loop of [_iterencode_dict]. *)
Fixpoint dict_chunks (first : bool) (dct : dict) : list str :=
  match dct with
  | [] => []
  | (key, value) :: dct' =>
      (if first then [] else [separator])
      ++ [encode_basestring key; lit ": "]
      ++ encode_nested value
      ++ dict_chunks false dct'
  end.

End Chunks.

(** The chunks the encoder yields, which [json.dump] writes to the file
    one by one; [level] is the current indentation level. *)
Fixpoint iterencode (level : nat) (o : pyval) : list str :=
  match o with
  | PNone => [lit "null"]
  | PInt z => [intstr z]
  | PStr s => [encode_basestring s]
  | PList [] => [lit "[]"]
  | PList lst =>
      list_chunks (iterencode (S level)) (44 :: newline_indent (S level))
        (91 :: newline_indent (S level)) lst
      ++ [newline_indent level; [93]]
  | PDict [] => [lit "{}"]
  | PDict dct =>
      [[123]; newline_indent (S level)]
      ++ dict_chunks (iterencode (S level)) (44 :: newline_indent (S level))
           true dct
      ++ [newline_indent level; [125]]
  end.

(** [json.dumps(o, indent=2, ensure_ascii=False)] *)
Definition dumps (o : pyval) : str := List.concat (iterencode 0 o).

(** ** Decoding *)

Definition is_ws (c : char) : bool :=
  (c =? 32) || (c =? 9) || (c =? 10) || (c =? 13).

Fixpoint skip_ws (s : str) : str :=
  match s with
  | c :: s' => if is_ws c then skip_ws s' else s
  | [] => []
  end.

Definition hex_value (c : char) : option N :=
  if (48 <=? c) && (c <=? 57) then Some (c - 48)
  else if (97 <=? c) && (c <=? 102) then Some (c - 87)
  else if (65 <=? c) && (c <=? 70) then Some (c - 55)
  else None.

Definition hex4 (a b c d : char) : option N :=
  match hex_value a, hex_value b, hex_value c, hex_value d with
  | Some x, Some y, Some z, Some w => Some (((x * 16 + y) * 16 + z) * 16 + w)
  | _, _, _, _ => None
  end.

(** The character a one-letter escape stands for. *)
Definition unescape (c : char) : option char :=
  if c =? 34 then Some 34
  else if c =? 92 then Some 92
  else if c =? 47 then Some 47
  else if c =? 98 then Some 8
  else if c =? 102 then Some 12
  else if c =? 110 then Some 10
  else if c =? 114 then Some 13
  else if c =? 116 then Some 9
  else None.

Definition with_char (c : char) (r : option (str * str)) : option (str * str) :=
  match r with
  | Some (t, rest) => Some (c :: t, rest)
  | None => None
  end.

(** The string literal whose opening quote has been read: its value and
    what follows the closing quote. *)
Fixpoint scanstring (s : str) : option (str * str) :=
  match s with
  | [] => None
  | c :: s1 =>
      if c =? 34 then Some ([], s1)
      else if c =? 92 then
        match s1 with
        | [] => None
        | esc :: s2 =>
            if esc =? 117 then
              match s2 with
              | h1 :: h2 :: h3 :: h4 :: s3 =>
                  match hex4 h1 h2 h3 h4 with
                  | None => None
                  | Some uni =>
                      if (0xD800 <=? uni) && (uni <=? 0xDBFF) then
                        match s3 with
                        | b :: u :: s4 =>
                            if (b =? 92) && (u =? 117) then
                              match s4 with
                              | g1 :: g2 :: g3 :: g4 :: s5 =>
                                  match hex4 g1 g2 g3 g4 with
                                  | None => None
                                  | Some uni2 =>
                                      if (0xDC00 <=? uni2) && (uni2 <=? 0xDFFF)
                                      then with_char
                                             (0x10000 + (uni - 0xD800) * 1024
                                              + (uni2 - 0xDC00))
                                             (scanstring s5)
                                      else with_char uni (scanstring s3)
                                  end
                              | _ => None
                              end
                            else with_char uni (scanstring s3)
                        | _ => with_char uni (scanstring s3)
                        end
                      else with_char uni (scanstring s3)
                  end
              | _ => None
              end
            else
              match unescape esc with
              | Some ch => with_char ch (scanstring s2)
              | None => None
              end
        end
      else if c <? 32 then None
      else with_char c (scanstring s1)
  end.

Definition digit_of (c : char) : option (Decimal.uint -> Decimal.uint) :=
  if c =? 48 then Some Decimal.D0
  else if c =? 49 then Some Decimal.D1
  else if c =? 50 then Some Decimal.D2
  else if c =? 51 then Some Decimal.D3
  else if c =? 52 then Some Decimal.D4
  else if c =? 53 then Some Decimal.D5
  else if c =? 54 then Some Decimal.D6
  else if c =? 55 then Some Decimal.D7
  else if c =? 56 then Some Decimal.D8
  else if c =? 57 then Some Decimal.D9
  else None.

(** The longest run of decimal digits at the head of [s]. *)
Fixpoint scan_digits (s : str) : Decimal.uint * str :=
  match s with
  | c :: s' =>
      match digit_of c with
      | Some d => let (u, rest) := scan_digits s' in (d u, rest)
      | None => (Decimal.Nil, s)
      end
  | [] => (Decimal.Nil, [])
  end.

(** An integer literal: [0] or a run of digits that does not start with
    [0].  A fraction or an exponent after it would make a [float], which
    the values of this development do not have: such input is refused. *)
Definition scan_natural (s : str) : option (N * str) :=
  match s with
  | c :: s' =>
      match digit_of c with
      | None => None
      | Some _ =>
          let (u, rest) := if c =? 48 then (Decimal.D0 Decimal.Nil, s')
                           else scan_digits s in
          match rest with
          | d :: _ =>
              if (d =? 46) || (d =? 101) || (d =? 69) then None
              else Some (N.of_uint u, rest)
          | [] => Some (N.of_uint u, rest)
          end
      end
  | [] => None
  end.

Section Containers.
Variable scan : str -> option (pyval * str).

(** The elements of an array after the first has been found to exist;
    [n] bounds the number of elements by the length of the input. *)
Fixpoint array_items (n : nat) (s : str) (values : list pyval)
  : option (pyval * str) :=
  match n with
  | O => None
  | S n' =>
      match scan s with
      | None => None
      | Some (value, s1) =>
          match skip_ws s1 with
          | c :: s2 =>
              if c =? 93 then Some (PList (values ++ [value]), s2)
              else if c =? 44 then array_items n' (skip_ws s2) (values ++ [value])
              else None
          | [] => None
          end
      end
  end.

(** After [[]. *)
Definition parse_array (s : str) : option (pyval * str) :=
  match skip_ws s with
  | c :: s1 =>
      if c =? 93 then Some (PList [], s1)
      else array_items (List.length s) (skip_ws s) []
  | [] => None
  end.

(** The members of an object, from the character after the opening quote
    of a key. *)
Fixpoint object_items (n : nat) (s : str) (pairs : dict)
  : option (pyval * str) :=
  match n with
  | O => None
  | S n' =>
      match scanstring s with
      | None => None
      | Some (key, s1) =>
          match skip_ws s1 with
          | c :: s2 =>
              if c =? 58 then
                match scan (skip_ws s2) with
                | None => None
                | Some (value, s3) =>
                    match skip_ws s3 with
                    | d :: s4 =>
                        if d =? 125
                        then Some (PDict (dict_set pairs key value), s4)
                        else if d =? 44 then
                          match skip_ws s4 with
                          | q :: s5 =>
                              if q =? 34
                              then object_items n' s5 (dict_set pairs key value)
                              else None
                          | [] => None
                          end
                        else None
                    | [] => None
                    end
                end
              else None
          | [] => None
          end
      end
  end.

(** After [{]. *)
Definition parse_object (s : str) : option (pyval * str) :=
  match skip_ws s with
  | c :: s1 =>
      if c =? 125 then Some (PDict [], s1)
      else if c =? 34 then object_items (List.length s) s1 []
      else None
  | [] => None
  end.

End Containers.

(** The value that starts at the head of [s].  [fuel] bounds the nesting
    depth.  The literals [true], [false], [NaN] and [Infinity] denote
    values this development does not have and are refused. *)
Fixpoint scan_once (fuel : nat) (s : str) : option (pyval * str) :=
  match fuel with
  | O => None
  | S fuel' =>
      match s with
      | [] => None
      | c :: s1 =>
          if c =? 34 then
            match scanstring s1 with
            | Some (t, rest) => Some (PStr t, rest)
            | None => None
            end
          else if c =? 123 then parse_object (scan_once fuel') s1
          else if c =? 91 then parse_array (scan_once fuel') s1
          else if c =? 110 then
            match strip_prefix (lit "ull") s1 with
            | Some rest => Some (PNone, rest)
            | None => None
            end
          else if c =? 45 then
            match scan_natural s1 with
            | Some (n, rest) => Some (PInt (- Z.of_N n), rest)
            | None => None
            end
          else
            match scan_natural s with
            | Some (n, rest) => Some (PInt (Z.of_N n), rest)
            | None => None
            end
      end
  end.

(** [json.loads(s)]: one value, with white space around it and nothing
    else; a text that starts with a byte order mark is refused. *)
Definition loads (s : str) : option pyval :=
  if startswith s [0xFEFF] then None
  else
    match scan_once (S (List.length s)) (skip_ws s) with
    | Some (o, rest) =>
        match skip_ws rest with
        | [] => Some o
        | _ :: _ => None
        end
    | None => None
    end.

End Json.

(* ================================================================== *)
(** * The extraction passes the three modules have in common *)
(* ================================================================== *)

Module Extractor.
Import Py Bs4.

(** The result of a [for] loop that runs [body] on the elements of [l]
    in order, threading the variables it assigns. *)
Definition for_in {A S : Type} (l : list A) (init : S) (body : S -> A -> S) : S :=
  fold_left body l init.

Section Passes.
Context {bs : BeautifulSoup}.

(** [meta_fields], a dictionary literal: its items in the order they are
    written. *)
Definition meta_fields : list (str * str) :=
  [ (lit "identifier", lit "dcterms.identifier");
    (lit "language", lit "dcterms.language");
    (lit "publisher", lit "dcterms.publisher");
    (lit "date", lit "dcterms.date");
    (lit "creator", lit "dcterms.creator") ].

(** [meta_tag['content'] if meta_tag and meta_tag.get('content') else None] *)
Definition meta_value (meta_tag : option node) : pyval :=
  match meta_tag with
  | Some tag =>
      match get tag (lit "content") with
      | Some content => if truthy content then PStr content else PNone
      | None => PNone
      end
  | None => PNone
  end.

(** The loop over [meta_fields.items()]. *)
Definition metadata_pass (soup : node) : dict :=
  for_in meta_fields [] (fun metadata field =>
    let (key, meta_name) := field in
    let meta_tag := find soup (lit "meta") [(lit "name", meta_name)] in
    dict_set metadata key (meta_value meta_tag)).

(** The name of a section; [sections] is the list built so far. *)
Definition resolve_name (sections : list pyval) (section : node) : str :=
  let section_name := get section (lit "data-section-name") in
  let resolved :=
    let header := find section (lit "header") [] in
    match header with
    | Some h => strip (text h)
    | None => lit "Section " ++ str_of_nat (List.length sections + 1)
    end in
  match section_name with
  | Some name => if truthy name then name else resolved
  | None => resolved
  end.

(** The field sub-pass, which differs between the modules: the
    questions of a section, given its name. *)
Variable questions_pass : str -> node -> list pyval.

(** The loop over [soup.find_all('section')]. *)
Definition sections_pass (soup : node) : list pyval :=
  for_in (find_all soup (lit "section") []) [] (fun sections section =>
    let section_name := resolve_name sections section in
    let section_data :=
      PDict [ (lit "name", PStr section_name);
              (lit "questions", PList (questions_pass section_name section)) ] in
    sections ++ [section_data]).

Definition title_pass (soup : node) : str :=
  let title_tag := find soup (lit "title") [] in
  match title_tag with
  | Some t => strip (text t)
  | None => lit "Untitled Document"
  end.

(** Everything [convert_html_to_json] does once [soup] is there. *)
Definition extract (soup : node) : pyval :=
  let metadata := metadata_pass soup in
  let sections := sections_pass soup in
  let title := title_pass soup in
  PDict [ (lit "title", PStr title);
          (lit "metadata", PDict metadata);
          (lit "sections", PList sections) ].

End Passes.

(** The fallback question of a section without fields. *)
Definition section_question (section_name : str) : pyval :=
  PDict [ (lit "id", PInt 0);
          (lit "label", PStr section_name);
          (lit "answer", PStr []);
          (lit "field_type", PStr (lit "SECTION")) ].

Section Strategies.
Context {bs : BeautifulSoup}.

(** The label of a textarea question when no usable [label] element is
    found: what the [else] branch assigns to [label_text]. *)
Variable label_fallback : str -> str -> str.

Definition textarea_question (section : node) (section_name : str)
    (question_id : nat) (textarea : node) : pyval :=
  let textarea_id := get_default textarea (lit "id") [] in
  let label_element := find section (lit "label") [(lit "for", textarea_id)] in
  let label_text :=
    match label_element with
    | Some l =>
        if truthy (strip (text l)) then strip (text l)
        else label_fallback section_name textarea_id
    | None => label_fallback section_name textarea_id
    end in
  let default_content :=
    if truthy (text textarea) then strip (text textarea) else [] in
  PDict [ (lit "id", PInt (Z.of_nat question_id));
          (lit "label", PStr label_text);
          (lit "answer", PStr default_content);
          (lit "field_type",
            PStr (get_default textarea (lit "data-field-type") (lit "TEXTAREA")));
          (lit "element_id", PStr textarea_id) ].

Definition label_question (question_id : nat) (label : node) : pyval :=
  PDict [ (lit "id", PInt (Z.of_nat question_id));
          (lit "label", PStr (strip (text label)));
          (lit "answer", PStr []);
          (lit "field_type", PStr (lit "LABEL")) ].

(** The three strategies of [radreportconverter/converter.py] and
    [fastapi_converter.py].  The loop state is the list
    [section_data["questions"]] and [question_id]. *)
Definition strategies (section_name : str) (section : node) : list pyval :=
  let textareas := find_all section (lit "textarea") [] in
  let questions :=
    match textareas with
    | _ :: _ =>
        fst (for_in textareas ([], O) (fun st textarea =>
               let (questions, question_id) := st : list pyval * nat in
               (questions
                  ++ [textarea_question section section_name question_id textarea],
                S question_id)))
    | [] =>
        let labels := find_all section (lit "label") [] in
        fst (for_in labels ([], O) (fun st label =>
               let (questions, question_id) := st : list pyval * nat in
               if truthy (strip (text label))
               then (questions ++ [label_question question_id label],
                     S question_id)
               else (questions, question_id)))
    end in
  match questions with
  | [] => [section_question section_name]
  | _ :: _ => questions
  end.

End Strategies.

End Extractor.

(* ================================================================== *)
(** * Reading the input file and looping over a directory *)
(* ================================================================== *)

Module Files.
Import Py Os.
Local Open Scope py_scope.

(** A [for] loop whose body reads or writes files. *)
Fixpoint for_each {A S : Type} (l : list A) (st : S) (body : S -> A -> M S)
  : M S :=
  match l with
  | [] => ret st
  | x :: l' => st' <- body st x ;; for_each l' st' body
  end.

(** A local variable of a function is a cell that is empty until the
    first assignment; reading it before raises. *)
Definition read_local {A : Type} (variable : str) (cell : option A) : M A :=
  match cell with
  | Some v => ret v
  | None => raise (UnboundLocalError variable)
  end.

Section Reading.
Context {proc : Process}.

(** The head of [convert_html_to_json(filename)] in [src/converter.py]
    and [src/radreportconverter/converter.py], up to the call of the
    parser: the file is looked up next to the module, read, and refused
    when it holds nothing but white space. *)
Definition read_html (filename : str) : M str :=
  let current_dir := script_dir in
  let file_path := join current_dir filename in
  found <- exists_ file_path ;;
  if negb found then
    raise (FileNotFoundError
             (lit "HTML file '" ++ filename
              ++ lit "' not found in the current directory"))
  else
    html_content <- read_text file_path ;;
    if negb (truthy html_content)
       || Nat.eqb (List.length (strip html_content)) 0
    then raise (ValueError
                  (lit "The file '" ++ filename ++ lit "' appears to be empty"))
    else ret html_content.

(** [[f for f in os.listdir(current_dir) if f.endswith('.html')]] *)
Definition html_files_of (entries : list str) : list str :=
  filter (fun f => endswith f (lit ".html")) entries.

End Reading.

End Files.

(* ================================================================== *)
(** * [src/converter.py] *)
(* ================================================================== *)

Module Converter.
Import Py Bs4 Os Files.
Local Open Scope py_scope.

Section Module_.
Context {bs : BeautifulSoup} {proc : Process}.

(** Lines 72-81: one question per [label] element of the section. *)
Definition questions (section_name : str) (section : node) : list pyval :=
  fst (Extractor.for_in (find_all section (lit "label") []) ([], O)
         (fun st label =>
            let (questions, question_id) := st : list pyval * nat in
            (questions
               ++ [PDict [ (lit "id", PInt (Z.of_nat question_id));
                           (lit "label", PStr (strip (text label)));
                           (lit "answer", PStr []) ]],
             S question_id))).

Definition extract (soup : node) : pyval :=
  Extractor.extract questions soup.

Definition convert_html_to_json (filename : str) : M pyval :=
  html_content <- read_html filename ;;
  let soup := html_parser html_content in
  ret (extract soup).

Definition save_json_output (data : pyval) (output_filename : option str)
  : M unit :=
  let output_filename :=
    match output_filename with
    | None => lit "converted_output.json"
    | Some f => f
    end in
  write_chunks output_filename (Json.iterencode 0 data).

(** The two counters of the summary; [None] when no HTML file was
    found.  What is printed on the way is left out. *)
Definition convert_all_html_files : M (option (nat * nat)) :=
  let current_dir := script_dir in
  entries <- listdir current_dir ;;
  let html_files := html_files_of entries in
  match html_files with
  | [] => ret None
  | _ :: _ =>
      counts <- for_each html_files (O, O) (fun counts html_filename =>
        let (successful_conversions, failed_conversions) := counts : nat * nat in
        try_except
          (result <- convert_html_to_json html_filename ;;
           let output_name := replace html_filename (lit ".html") (lit ".json") in
           save_json_output result (Some output_name) ;;
           ret (S successful_conversions, failed_conversions))
          (fun e => ret (successful_conversions, S failed_conversions))) ;;
      ret (Some counts)
  end.

End Module_.
End Converter.

(* ================================================================== *)
(** * [src/radreportconverter/fastapi_converter.py] *)
(* ================================================================== *)

Module FastApi.
Import Py Bs4.

Section Module_.
Context {bs : BeautifulSoup}.

(** Line 47: [... else section_name]. *)
Definition label_fallback (section_name textarea_id : str) : str :=
  section_name.

Definition questions : str -> node -> list pyval :=
  Extractor.strategies label_fallback.

Definition extract (soup : node) : pyval :=
  Extractor.extract questions soup.

(** The function takes the text itself and has no statement that
    raises. *)
Definition convert_html_to_json (html_content : str) : Os.result pyval :=
  let soup := html_parser html_content in
  Os.Ok (extract soup).

End Module_.
End FastApi.

(* ================================================================== *)
(** * [src/radreportconverter/converter.py] *)
(* ================================================================== *)

Module RadReport.
Import Py Bs4 Os Files.
Local Open Scope py_scope.

Section Module_.
Context {bs : BeautifulSoup} {proc : Process}.

(** Line 89:
    [section_name or textarea_id.replace('Text', '').replace('_', ' ').title()] *)
Definition label_fallback (section_name textarea_id : str) : str :=
  if truthy section_name then section_name
  else title (replace (replace textarea_id (lit "Text") []) (lit "_") (lit " ")).

Definition questions : str -> node -> list pyval :=
  Extractor.strategies label_fallback.

Definition extract (soup : node) : pyval :=
  Extractor.extract questions soup.

Definition convert_html_to_json (filename : str) : M pyval :=
  html_content <- read_html filename ;;
  let soup := html_parser html_content in
  ret (extract soup).

(** The dictionary [analysis] of [analyze_html_structure], which the body
    of [save_json_output] builds in the same way. *)
Definition structure_analysis (filename : str) (soup : node) : dict :=
  let count name := PInt (Z.of_nat (List.length (find_all soup name []))) in
  let analysis :=
    [ (lit "filename", PStr filename);
      (lit "title", PStr match find soup (lit "title") [] with
                         | Some t => text t
                         | None => lit "No title"
                         end);
      (lit "sections_count", count (lit "section"));
      (lit "textareas_count", count (lit "textarea"));
      (lit "labels_count", count (lit "label"));
      (lit "form_type", PStr (lit "unknown")) ] in
  let analysis :=
    dict_set analysis (lit "form_type")
      (PStr (if negb (Nat.eqb (List.length (find_all soup (lit "textarea") [])) 0)
             then lit "textarea_based"
             else if negb (Nat.eqb (List.length (find_all soup (lit "label") [])) 0)
             then lit "label_based"
             else lit "section_only")) in
  let sections_info :=
    Extractor.for_in (find_all soup (lit "section") []) []
      (fun sections_info section =>
         let section_name :=
           match get section (lit "data-section-name") with
           | Some name =>
               if truthy name then name
               else match find section (lit "header") [] with
                    | Some h => strip (text h)
                    | None => lit "Unnamed"
                    end
           | None => match find section (lit "header") [] with
                     | Some h => strip (text h)
                     | None => lit "Unnamed"
                     end
           end in
         sections_info
           ++ [PDict [ (lit "name", PStr section_name);
                       (lit "textareas",
                         PInt (Z.of_nat (List.length
                                 (find_all section (lit "textarea") []))));
                       (lit "labels",
                         PInt (Z.of_nat (List.length
                                 (find_all section (lit "label") [])))) ]]) in
  dict_set analysis (lit "sections_details") (PList sections_info).

Definition analyze_html_structure (filename : str) : M pyval :=
  let current_dir := script_dir in
  let file_path := join current_dir filename in
  found <- exists_ file_path ;;
  if negb found then
    ret (PDict [(lit "error", PStr (lit "File '" ++ filename ++ lit "' not found"))])
  else
    html_content <- read_text file_path ;;
    let soup := html_parser html_content in
    ret (PDict (structure_analysis filename soup)).

(** [save_json_output(data, filename)], lines 140-210.  The body starts
    with the statements of [analyze_html_structure]; the statements that
    write the file come after them and use [output_filename], a local
    variable that has no value when it is first read (line 204). *)
Definition save_json_output (data : pyval) (filename : str) : M pyval :=
  let output_filename : option (option str) := None in
  let current_dir := script_dir in
  let file_path := join current_dir filename in
  found <- exists_ file_path ;;
  if negb found then
    ret (PDict [(lit "error", PStr (lit "File '" ++ filename ++ lit "' not found"))])
  else
    html_content <- read_text file_path ;;
    let soup := html_parser html_content in
    let analysis := structure_analysis filename soup in
    value <- read_local (lit "output_filename") output_filename ;;
    let output_filename :=
      match value with
      | None => lit "converted_output.json"
      | Some f => f
      end in
    write_chunks output_filename (Json.iterencode 0 data) ;;
    ret PNone.

(** The two counters of the summary; [None] when no HTML file was
    found.  What is printed on the way is left out. *)
Definition convert_all_html_files : M (option (nat * nat)) :=
  let current_dir := script_dir in
  entries <- listdir current_dir ;;
  let html_files := html_files_of entries in
  match html_files with
  | [] => ret None
  | _ :: _ =>
      for_each html_files tt (fun _ html_file =>
        analysis <- analyze_html_structure html_file ;;
        ret tt) ;;
      counts <- for_each html_files (O, O) (fun counts html_filename =>
        let (successful_conversions, failed_conversions) := counts : nat * nat in
        try_except
          (result <- convert_html_to_json html_filename ;;
           let output_name := replace html_filename (lit ".html") (lit ".json") in
           save_json_output result output_name ;;
           ret (S successful_conversions, failed_conversions))
          (fun e => ret (successful_conversions, S failed_conversions))) ;;
      ret (Some counts)
  end.

End Module_.
End RadReport.

(* ================================================================== *)
(** * Vocabulary of the statements *)
(* ================================================================== *)

Module Doc.
Import Py Bs4.

(** [f 0 x0; f 1 x1; ...], counting from [i]. *)
Fixpoint indexed {A B : Type} (f : nat -> A -> B) (i : nat) (l : list A)
  : list B :=
  match l with
  | [] => []
  | x :: l' => f i x :: indexed f (S i) l'
  end.

(** [doc["sections"]], [section["name"]], [section["questions"]] and the
    entries of a question. *)
Definition field (key : string) (o : pyval) : option pyval :=
  match o with
  | PDict d => dict_get d (lit key)
  | _ => None
  end.

Definition sections_of (doc : pyval) : option (list pyval) :=
  match field "sections" doc with
  | Some (PList l) => Some l
  | _ => None
  end.

Definition questions_of (section : pyval) : option (list pyval) :=
  match field "questions" section with
  | Some (PList l) => Some l
  | _ => None
  end.

Definition metadata_of (doc : pyval) : option dict :=
  match field "metadata" doc with
  | Some (PDict d) => Some d
  | _ => None
  end.

(** The keys of a dictionary, in order. *)
Definition keys_of (o : pyval) : list str :=
  match o with
  | PDict d => keys d
  | _ => []
  end.

Section Queries.
Context {bs : BeautifulSoup}.

(** [r] is the first node below [n], in document order, that [p]
    selects; [None] when there is none. *)
Definition first_below (n : node) (p : node -> bool) (r : option node)
  : Prop :=
  match r with
  | Some t =>
      exists before after,
        descendants n = before ++ t :: after
        /\ p t = true
        /\ Forall (fun x => p x = false) before
  | None => Forall (fun x => p x = false) (descendants n)
  end.

(** The nodes below [n] that [p] selects, in document order. *)
Definition all_below (n : node) (p : node -> bool) : list node :=
  filter p (descendants n).

(** A [label] element for the identifier [id]. *)
Definition is_label_for (id : str) (n : node) : bool :=
  is_tag (lit "label") n && attr_matches (get n (lit "for")) id.

(** A [meta] element with the given [name] attribute. *)
Definition is_meta_named (name : str) (n : node) : bool :=
  is_tag (lit "meta") n
  && match get n (lit "name") with
     | Some v => eqb v name
     | None => false
     end.

Definition textareas_of (section : node) : list node :=
  all_below section (is_tag (lit "textarea")).

Definition labels_of (section : node) : list node :=
  all_below section (is_tag (lit "label")).

Definition sections_in (soup : node) : list node :=
  all_below soup (is_tag (lit "section")).

Definition headers_of (section : node) : list node :=
  all_below section (is_tag (lit "header")).

(** The labels with text left after trimming. *)
Definition has_text (n : node) : bool := truthy (strip (text n)).

End Queries.

(** White space only, or nothing at all. *)
Definition blank (s : str) : Prop := forallb isspace s = true.

(** ** Documents *)

(** The question [src/converter.py] builds for a [label] element. *)
Definition converter_question (question_id : nat) (label : node) : pyval :=
  PDict [ (lit "id", PInt (Z.of_nat question_id));
          (lit "label", PStr (strip (text label)));
          (lit "answer", PStr []) ].


(** What it means for the sections of [doc] to follow the [section]
    elements of [soup]: there are as many, and the one at position [i]
    is built from element [i], named with the sections before it in
    hand, its questions being those of the field sub-pass [qp]. *)
Definition follows_source {bs : BeautifulSoup}
    (qp : str -> node -> list pyval) (soup : node) (doc : pyval) : Prop :=
  exists secs,
    sections_of doc = Some secs
    /\ List.length secs = List.length (sections_in soup)
    /\ Forall (fun i =>
         match nth_error (sections_in soup) i with
         | Some section =>
             let name := Extractor.resolve_name (firstn i secs) section in
             nth_error secs i
             = Some (PDict [ (lit "name", PStr name);
                             (lit "questions", PList (qp name section)) ])
         | None => False
         end) (seq 0 (List.length (sections_in soup))).


(** The name of the section at position [i] of a document. *)
Definition name_at (doc : pyval) (i : nat) : option pyval :=
  match sections_of doc with
  | Some secs =>
      match nth_error secs i with
      | Some section => field "name" section
      | None => None
      end
  | None => None
  end.


(** The value recorded for a [meta] element, if one was found. *)
Definition content_or_none (meta_tag : option node) : pyval :=
  match meta_tag with
  | Some tag =>
      match get tag (lit "content") with
      | Some content => if truthy content then PStr content else PNone
      | None => PNone
      end
  | None => PNone
  end.


(** The question of a [textarea] element, given the label to fall back
    on when no [label] element with text is found for it. *)
Definition question_of_textarea {bs : BeautifulSoup}
    (label_element : option node) (fallback : str)
    (question_id : nat) (textarea : node) : pyval :=
  PDict [ (lit "id", PInt (Z.of_nat question_id));
          (lit "label",
            PStr match label_element with
                 | Some l => if has_text l then strip (text l) else fallback
                 | None => fallback
                 end);
          (lit "answer", PStr (strip (text textarea)));
          (lit "field_type",
            PStr match get textarea (lit "data-field-type") with
                 | Some field_type => field_type
                 | None => lit "TEXTAREA"
                 end);
          (lit "element_id", PStr (get_default textarea (lit "id") [])) ].


(** A character of a string is either escaped or written as it is, and
    then it has the property [q]. *)
Definition escaped_or (q : char -> bool) (c : char) : bool :=
  N.ltb c 32 || q c.


(** ** Values and their JSON text *)

(** Induction on values, with the hypothesis for the items of a list and
    for the values of a dictionary. *)
Section Value_induction.
Variable P : pyval -> Prop.
Hypothesis none_case : P PNone.
Hypothesis int_case : forall z, P (PInt z).
Hypothesis str_case : forall s, P (PStr s).
Hypothesis list_case : forall l, Forall P l -> P (PList l).
Hypothesis dict_case : forall d, Forall (fun kv => P (snd kv)) d -> P (PDict d).

Fixpoint pyval_induction (o : pyval) : P o :=
  match o with
  | PNone => none_case
  | PInt z => int_case z
  | PStr s => str_case s
  | PList l =>
      list_case
        ((fix all (l : list pyval) : Forall P l :=
            match l with
            | [] => Forall_nil P
            | x :: l' => Forall_cons x (pyval_induction x) (all l')
            end) l)
  | PDict d =>
      dict_case
        ((fix all (d : list (str * pyval)) : Forall (fun kv => P (snd kv)) d :=
            match d with
            | [] => Forall_nil _
            | kv :: d' =>
                Forall_cons (P := fun kv => P (snd kv)) kv
                  (pyval_induction (snd kv)) (all d')
            end) d)
  end.
End Value_induction.

Fixpoint nodupb (l : list str) : bool :=
  match l with
  | [] => true
  | k :: l' => negb (existsb (eqb k) l') && nodupb l'
  end.

(** No dictionary inside [o] has the same key twice (what a Python
    [dict] cannot have). *)
Fixpoint distinct_keys (o : pyval) : bool :=
  match o with
  | PList l => forallb distinct_keys l
  | PDict d =>
      nodupb (map fst d) && forallb (fun kv => distinct_keys (snd kv)) d
  | _ => true
  end.

(** Every character of every string of [o], keys included, passes [p]. *)
Fixpoint strings_all (p : char -> bool) (o : pyval) : bool :=
  match o with
  | PStr s => forallb p s
  | PList l => forallb (strings_all p) l
  | PDict d =>
      forallb (fun kv => forallb p (fst kv) && strings_all p (snd kv)) d
  | _ => true
  end.

(** A Unicode scalar value: a code point that is not a surrogate. *)
Definition is_scalar (c : char) : bool :=
  N.ltb c 0x110000 && negb (Codec.is_surrogate c).

(** The nesting depth of [o], counting [o] itself. *)
Fixpoint depth (o : pyval) : nat :=
  match o with
  | PList l => S (fold_right (fun v m => Nat.max (depth v) m) O l)
  | PDict d => S (fold_right (fun kv m => Nat.max (depth (snd kv)) m) O d)
  | _ => 1%nat
  end.

(** The text of [o] at an indentation level: the chunks, joined. *)
Definition text_of (level : nat) (o : pyval) : str :=
  List.concat (Json.iterencode level o).

(** The text of the items of a list after the first, and of the members
    of a dictionary after the first. *)
Fixpoint more_items (level : nat) (l : list pyval) : str :=
  match l with
  | [] => []
  | v :: l' =>
      44%N :: Json.newline_indent (S level) ++ text_of (S level) v
         ++ more_items level l'
  end.

Fixpoint more_members (level : nat) (d : dict) : str :=
  match d with
  | [] => []
  | kv :: d' =>
      44%N :: Json.newline_indent (S level)
         ++ Json.encode_basestring (fst kv) ++ [58%N; 32%N]
         ++ text_of (S level) (snd kv) ++ more_members level d'
  end.

(** What may follow a value for it to be read back on its own: not a
    digit, and not the start of a fraction or an exponent. *)
Definition separates (rest : str) : Prop :=
  match rest with
  | [] => True
  | c :: _ =>
      Json.digit_of c = None
      /\ (N.eqb c 46 || N.eqb c 101 || N.eqb c 69) = false
  end.

(** The characters a value can start with. *)
Definition value_start (c : char) : Prop :=
  (c = 110 \/ 48 <= c <= 57 \/ c = 45 \/ c = 34 \/ c = 91 \/ c = 123)%N.

(** A decimal number without leading zero. *)
Definition leading (u : Decimal.uint) : bool :=
  match u with
  | Decimal.Nil | Decimal.D0 _ => false
  | _ => true
  end.

(** [scan] reads the text of [x] at [level] back, whatever comes after
    it. *)
Definition reads (scan : str -> option (pyval * str)) (level : nat)
    (x : pyval) : Prop :=
  forall R, separates R -> scan (text_of level x ++ R) = Some (x, R).

(** The characters of the JSON syntax and of the escapes: printable
    ASCII and the line feed. *)
Definition syntax_char (c : char) : bool :=
  (N.leb 32 c && N.ltb c 127) || N.eqb c 10.

(** Reading a saved document back,
    [with open(path, encoding='utf-8') as f: json.load(f)].  The
    repository only writes; this is the reading side of the persisted
    format. *)
Definition read_back {proc : Os.Process} (s : Os.fs) (path : str)
  : option pyval :=
  match Os.file_at s (Os.absolute path) with
  | Some content =>
      match Codec.utf8_decode content with
      | Some t => Json.loads (Codec.universal_newlines t)
      | None => None
      end
  | None => None
  end.

End Doc.

(* ================================================================== *)
(** * Sample inputs *)
(* ================================================================== *)

Module Sample.
Import Py Bs4.
Local Open Scope string_scope.
Local Open Scope list_scope.

Definition element (name : string) (attrs : list (string * string))
    (contents : list node) : node :=
  Tag (lit name) (map (fun kv => (lit (fst kv), lit (snd kv))) attrs) contents.

Definition string_ (s : string) : node := NavigableString (lit s).

Definition document (contents : list node) : node :=
  Tag (lit "[document]") [] contents.

Definition findings_textarea : node :=
  element "textarea" [("id", "f1"); ("data-field-type", "TEXTAREA")]
    [string_ "normal"].

Definition findings : node :=
  element "section" [("data-section-name", "Findings")]
    [ element "label" [("for", "f1")] [string_ "Findings:"];
      findings_textarea ].

Definition impression : node :=
  element "section" [] [ element "p" [] [string_ "No fields here."] ].

Definition untitled : node :=
  element "section" [("data-section-name", EmptyString)]
    [ element "header" [] [string_ "  "];
      element "textarea" [("id", "f1")] [] ].

Definition history : node :=
  element "section" [("data-section-name", EmptyString)]
    [ element "header" [] [string_ " History "];
      element "label" [] [string_ "Smoker?"];
      element "label" [] [string_ " "];
      element "label" [] [string_ "Allergies"] ].

Definition report : node :=
  document
    [ element "html" []
        [ element "head" []
            [ element "title" [] [string_ "Chest CT"];
              element "meta" [("name", "dcterms.creator"); ("content", "Dr. X")] [] ];
          element "body" [] [findings; impression; untitled; history] ] ].

(** The example of the specification. *)
Definition chest_ct : node :=
  document
    [ element "title" [] [string_ "Chest CT"];
      element "meta" [("name", "dcterms.creator"); ("content", "Dr. X")] [];
      element "section" [("data-section-name", "Findings")]
        [ element "textarea" [("id", "f1"); ("data-field-type", "TEXTAREA")]
            [string_ "normal"] ] ].

(** A document whose title is the one character U+D800, as the parser
    returns it for the character reference [&#xD800;]. *)
Definition lone_surrogate : node :=
  document [ element "title" [] [NavigableString [0xD800%N]] ].

(** An installation whose parser returns the tree [report] whatever the
    text. *)
Definition library : BeautifulSoup :=
  {| html_parser := fun _ => report; absent_matches_empty := false |}.

Definition process : Os.Process :=
  {| Os.script_dir := lit "/app"; Os.cwd := lit "/app" |}.

Definition report_html : bytes :=
  lit "<html><head><title>Chest CT</title></head><body>...</body></html>".

Definition disk : Os.fs := [ (lit "/app/report.html", report_html) ].

End Sample.

(* ================================================================== *)
(** * The endpoint of [src/radreportconverter/fastapi_converter.py] *)
(* ================================================================== *)

Module Endpoint.
Import Py Bs4.

(** What a request ends in: the dictionary the handler returns, or the
    [HTTPException] it raises. *)
Inductive response :=
| Returns (body : pyval)
| HTTPException (status_code : nat) (detail : str).

Section Module_.
Context {bs : BeautifulSoup}.

(** [str(e)], as the runtime words an exception. *)
Variable str_of_exception : Os.exn -> str.

(** The dictionary of a successful conversion. *)
Definition success (filename : str) (result : pyval) : response :=
  Returns (PDict [ (lit "status", PStr (lit "success"));
                   (lit "filename", PStr filename);
                   (lit "data", result) ]).

(** [convert_html_file(file)], lines 95-136, for an upload with the name
    [filename] and the content [uploaded].  When decoding as UTF-8 raises,
    [html_content] is still the bytes that were read, and the handler of
    [UnicodeDecodeError] decodes them as Latin-1. *)
Definition convert_html_file (filename : str) (uploaded : bytes) : response :=
  if negb (endswith filename (lit ".html")) then
    HTTPException 400 (lit "File must be an HTML file")
  else
    match Codec.utf8_decode uploaded with
    | Some html_content =>
        match FastApi.convert_html_to_json html_content with
        | Os.Ok result => success filename result
        | Os.Raise e =>
            HTTPException 500
              (lit "Error processing file: " ++ str_of_exception e)
        end
    | None =>
        let html_content := Codec.latin1_decode uploaded in
        match FastApi.convert_html_to_json html_content with
        | Os.Ok result => success filename result
        | Os.Raise e =>
            HTTPException 400
              (lit "Error decoding file: " ++ str_of_exception e)
        end
    end.

End Module_.
End Endpoint.

(* ================================================================== *)
(** * Further vocabulary *)
(* ================================================================== *)

Module Shape.
Import Py Bs4 Doc.

(** Induction on the nodes of a document, with the hypothesis for the
    contents of a tag. *)
Section Node_induction.
Variable P : node -> Prop.
Hypothesis string_case : forall s, P (NavigableString s).
Hypothesis comment_case : forall s, P (Comment s).
Hypothesis tag_case :
  forall name attrs contents, Forall P contents -> P (Tag name attrs contents).

Fixpoint node_induction (n : node) : P n :=
  match n with
  | NavigableString s => string_case s
  | Comment s => comment_case s
  | Tag name attrs contents =>
      tag_case name attrs
        ((fix all (l : list node) : Forall P l :=
            match l with
            | [] => Forall_nil P
            | x :: l' => Forall_cons x (node_induction x) (all l')
            end) contents)
  end.
End Node_induction.

(** [inner] lies below [outer]. *)
Definition below (inner outer : node) : Prop := In inner (descendants outer).

(** Neither the first nor the last character is white space. *)
Definition trimmed (s : str) : Prop :=
  match s with
  | [] => True
  | c :: _ => isspace c = false
  end
  /\ match rev s with
     | [] => True
     | c :: _ => isspace c = false
     end.

(** The keys of the dictionaries the modules build. *)
Definition document_keys : list str :=
  [lit "title"; lit "metadata"; lit "sections"].

Definition section_keys : list str := [lit "name"; lit "questions"].

Definition plain_question_keys : list str :=
  [lit "id"; lit "label"; lit "answer"].

Definition question_keys : list str :=
  [lit "id"; lit "label"; lit "answer"; lit "field_type"].

Definition textarea_question_keys : list str :=
  [lit "id"; lit "label"; lit "answer"; lit "field_type"; lit "element_id"].

Definition analysis_keys : list str :=
  [ lit "filename"; lit "title"; lit "sections_count"; lit "textareas_count";
    lit "labels_count"; lit "form_type"; lit "sections_details" ].

(** The name a section element resolves to at position [i]. *)
Definition resolved_at (i : nat) (section : node) : str :=
  match get section (lit "data-section-name") with
  | Some (c :: name) => c :: name
  | _ =>
      match hd_error (headers_of section) with
      | Some header => strip (text header)
      | None => lit "Section " ++ str_of_nat (i + 1)
      end
  end.

(** Whether the name of a section element resolves to a string that is
    not empty: by its attribute, by a [header] with text, or for want of
    a [header]. *)
Definition has_name (section : node) : bool :=
  match get section (lit "data-section-name") with
  | Some (_ :: _) => true
  | _ =>
      match hd_error (headers_of section) with
      | Some header => has_text header
      | None => true
      end
  end.

(** The name of a section element in the analysis of a page. *)
Definition analysed_name (section : node) : str :=
  match get section (lit "data-section-name") with
  | Some (c :: name) => c :: name
  | _ =>
      match hd_error (headers_of section) with
      | Some header => strip (text header)
      | None => lit "Unnamed"
      end
  end.

(** How many questions the strategies give a section. *)
Definition strategy_count (section : node) : nat :=
  match textareas_of section, filter has_text (labels_of section) with
  | _ :: _, _ => List.length (textareas_of section)
  | [], _ :: _ => List.length (filter has_text (labels_of section))
  | [], [] => 1
  end.

Section Files_.
Context {bs : BeautifulSoup} {proc : Os.Process}.

(** The path of the file [filename] next to the module, as the system
    sees it. *)
Definition beside_module (filename : str) : str :=
  Os.absolute (Os.join Os.script_dir filename).

(** Whether there is a file [filename] next to the module, and its text
    if there is. *)
Definition present (s : Os.fs) (filename : str) : bool :=
  match Os.file_at s (beside_module filename) with
  | Some _ => true
  | None => false
  end.

Definition text_at (s : Os.fs) (filename : str) : option str :=
  match Os.file_at s (beside_module filename) with
  | Some content => Some (Os.decoded content)
  | None => None
  end.

(** The [.html] entries of the directory of the module, in the order of
    the listing. *)
Definition html_files (s : Os.fs) : list str :=
  match snd (Os.listdir Os.script_dir s) with
  | Os.Ok entries => Files.html_files_of entries
  | Os.Raise _ => []
  end.

(** The name of the output file of [html_filename]. *)
Definition output_name (html_filename : str) : str :=
  replace html_filename (lit ".html") (lit ".json").

(** The chunks of the JSON text of [doc] can all be encoded. *)
Definition writable (doc : pyval) : bool :=
  snd (Os.encode_chunks (Json.iterencode 0 doc)).

(** The files the batch of [src/converter.py] converts: those with text
    whose document can be written. *)
Definition converted (s : Os.fs) (html_filename : str) : bool :=
  match text_at s html_filename with
  | Some html_content =>
      negb (forallb isspace html_content)
      && writable (Converter.extract (html_parser html_content))
  | None => false
  end.

(** The files for which the batch of [radreportconverter/converter.py]
    counts a success: those with text for which no file with the name of
    the output lies next to the module. *)
Definition reported (s : Os.fs) (html_filename : str) : bool :=
  match text_at s html_filename with
  | Some html_content =>
      negb (forallb isspace html_content)
      && negb (present s (output_name html_filename))
  | None => false
  end.

(** What [convert_html_to_json(filename)] ends in, given the function
    that extracts the document. *)
Definition outcome (extract : node -> pyval) (s : Os.fs) (filename : str)
  : Os.result pyval :=
  match text_at s filename with
  | None =>
      Os.Raise (Os.FileNotFoundError
                  (lit "HTML file '" ++ filename
                   ++ lit "' not found in the current directory"))
  | Some html_content =>
      if forallb isspace html_content
      then Os.Raise (Os.ValueError
                       (lit "The file '" ++ filename
                        ++ lit "' appears to be empty"))
      else Os.Ok (extract (html_parser html_content))
  end.

(** The files whose path ends in [.html] are in [s] as they are in
    [s0]. *)
Definition pages_kept (s0 s : Os.fs) : Prop :=
  forall path, endswith path (lit ".html") = true ->
               Os.file_at s path = Os.file_at s0 path.

(** The two counters after a batch over [files], when [ok] tells the
    files that are converted. *)
Definition tally (ok : str -> bool) (files : list str) : option (nat * nat) :=
  match files with
  | [] => None
  | _ :: _ =>
      Some (List.length (filter ok files),
            List.length (filter (fun f => negb (ok f)) files))
  end.

End Files_.

End Shape.

(** More sample inputs. *)
Module Cases.
Import Py Bs4.
Local Open Scope string_scope.
Local Open Scope list_scope.

(** A section inside a section, each with a [textarea]. *)
Definition inner : node :=
  Sample.element "section" [("data-section-name", "Inner")]
    [ Sample.element "textarea" [("id", "b")] [] ].

Definition outer : node :=
  Sample.element "section" [("data-section-name", "Outer")]
    [ Sample.element "textarea" [("id", "a")] []; inner ].

(** A page without [textarea] and [label] elements. *)
Definition prose : node :=
  Sample.document
    [ Sample.element "section" [] [Sample.element "header" [] [Sample.string_ " Notes "]];
      Sample.element "section" [] [] ].

(** An installation whose parser returns the tree [prose] whatever the
    text. *)
Definition library : BeautifulSoup :=
  {| html_parser := fun _ => prose; absent_matches_empty := true |}.

End Cases.

(* ================================================================== *)
(** * Strings, queries and loops *)
(* ================================================================== *)

Import Py Bs4 Doc.

(** The built-ins on small inputs. *)
Example strip_example : strip (lit "  a b  ") = lit "a b".
Proof. reflexivity. Qed.

Example replace_example :
  replace (lit "scan.html") (lit ".html") (lit ".json") = lit "scan.json".
Proof. reflexivity. Qed.

Example title_example :
  title (replace (replace (lit "lung_findingsText") (lit "Text") [])
           (lit "_") (lit " "))
  = lit "Lung Findings".
Proof. reflexivity. Qed.

Example str_of_nat_example : str_of_nat 12 = lit "12".
Proof. reflexivity. Qed.

Example join_example : Os.join (lit "/app") (lit "a.html") = lit "/app/a.html".
Proof. reflexivity. Qed.

(** The example of the specification: a title, one [meta] element and a
    section with one [textarea]. *)
Example chest_ct_example :
  RadReport.extract (bs := Sample.library) Sample.chest_ct
  = PDict
      [ (lit "title", PStr (lit "Chest CT"));
        (lit "metadata",
          PDict [ (lit "identifier", PNone); (lit "language", PNone);
                  (lit "publisher", PNone); (lit "date", PNone);
                  (lit "creator", PStr (lit "Dr. X")) ]);
        (lit "sections",
          PList
            [ PDict
                [ (lit "name", PStr (lit "Findings"));
                  (lit "questions",
                    PList
                      [ PDict [ (lit "id", PInt 0);
                                (lit "label", PStr (lit "Findings"));
                                (lit "answer", PStr (lit "normal"));
                                (lit "field_type", PStr (lit "TEXTAREA"));
                                (lit "element_id", PStr (lit "f1")) ] ]) ] ]) ].
Proof. reflexivity. Qed.

Lemma eqb_eq (a b : str) : eqb a b = true <-> a = b.
Proof.
  revert b; induction a as [|x a IH]; intros [|y b]; simpl;
    try (split; [discriminate | congruence]); try tauto.
  rewrite andb_true_iff, N.eqb_eq, IH. split.
  - intros [-> ->]; reflexivity.
  - intros [= -> ->]; auto.
Qed.

Lemma eqb_refl (a : str) : eqb a a = true.
Proof. now apply eqb_eq. Qed.

Lemma eqb_neq (a b : str) : eqb a b = false <-> a <> b.
Proof.
  rewrite <- eqb_eq. destruct (eqb a b); split; congruence.
Qed.

Lemma lstrip_blank (s : str) : blank s -> lstrip s = [].
Proof.
  unfold blank. induction s as [|c s IH]; simpl; auto.
  rewrite andb_true_iff. intros [-> H]. auto.
Qed.

Lemma lstrip_not_blank (s : str) : ~ blank s -> lstrip s <> [].
Proof.
  unfold blank. induction s as [|c s IH]; simpl.
  - intros H; now elim H.
  - destruct (isspace c); simpl; auto. discriminate.
Qed.

Lemma lstrip_head (s : str) c t : lstrip s = c :: t -> isspace c = false.
Proof.
  induction s as [|d s IH]; simpl; [discriminate|].
  destruct (isspace d) eqn:E; auto. intros [= -> _]. exact E.
Qed.

(** Trimming leaves nothing exactly when the string is blank. *)
Lemma strip_blank (s : str) : blank s <-> strip s = [].
Proof.
  unfold strip, rstrip. split.
  - intros H. now rewrite (lstrip_blank H).
  - intros H. destruct (forallb isspace s) eqn:E; [exact E|].
    exfalso.
    assert (N : lstrip s <> []) by (apply lstrip_not_blank; unfold blank; congruence).
    apply (f_equal (@rev _)) in H. rewrite rev_involutive in H. simpl in H.
    destruct (lstrip s) as [|c t] eqn:L; [congruence|].
    assert (R : lstrip (rev (c :: t)) = []) by exact H.
    assert (B : forallb isspace (rev (c :: t)) = true).
    { destruct (forallb isspace (rev (c :: t))) eqn:F; auto.
      exfalso. apply (@lstrip_not_blank (rev (c :: t))); auto.
      unfold blank. congruence. }
    rewrite forallb_forall in B.
    specialize (B c). rewrite (lstrip_head _ L) in B.
    discriminate B. apply in_rev. rewrite rev_involutive. now left.
Qed.

Lemma truthy_strip (s : str) : truthy (strip s) = negb (forallb isspace s).
Proof.
  destruct (forallb isspace s) eqn:E; simpl.
  - now rewrite (proj1 (strip_blank s) E).
  - destruct (strip s) eqn:S; auto.
    apply strip_blank in S. unfold blank in S. congruence.
Qed.

Lemma indexed_length {A B} (f : nat -> A -> B) i l :
  List.length (indexed f i l) = List.length l.
Proof. revert i; induction l; simpl; auto. Qed.

Lemma indexed_nth {A B} (f : nat -> A -> B) i l k x :
  nth_error l k = Some x -> nth_error (indexed f i l) k = Some (f (i + k) x).
Proof.
  revert i k; induction l as [|y l IH]; intros i [|k]; simpl; try discriminate.
  - intros [= ->]. now rewrite Nat.add_0_r.
  - intros H. rewrite (IH (S i) k H). f_equal. f_equal. lia.
Qed.

Lemma indexed_app {A B} (f : nat -> A -> B) i l1 l2 :
  indexed f i (l1 ++ l2) = indexed f i l1 ++ indexed f (i + List.length l1) l2.
Proof.
  revert i; induction l1 as [|x l1 IH]; intros i; simpl.
  - now rewrite Nat.add_0_r.
  - rewrite IH. do 3 f_equal. lia.
Qed.

(** A loop that appends one item per element and counts them. *)
Lemma counting_loop {A B} (f : nat -> A -> B) l qs n :
  Extractor.for_in l (qs, n)
    (fun st x => let (questions, question_id) := st : list B * nat in
                 (questions ++ [f question_id x], S question_id))
  = (qs ++ indexed f n l, n + List.length l).
Proof.
  unfold Extractor.for_in.
  revert qs n; induction l as [|x l IH]; intros qs n; simpl.
  - now rewrite app_nil_r, Nat.add_0_r.
  - rewrite IH, <- app_assoc. simpl. f_equal. lia.
Qed.

(** The same, with a test that skips elements. *)
Lemma filtering_loop {A B} (f : nat -> A -> B) (p : A -> bool) l qs n :
  Extractor.for_in l (qs, n)
    (fun st x => let (questions, question_id) := st : list B * nat in
                 if p x then (questions ++ [f question_id x], S question_id)
                 else (questions, question_id))
  = (qs ++ indexed f n (filter p l), n + List.length (filter p l)).
Proof.
  unfold Extractor.for_in.
  revert qs n; induction l as [|x l IH]; intros qs n; simpl.
  - now rewrite app_nil_r, Nat.add_0_r.
  - destruct (p x); simpl; rewrite IH; auto.
    rewrite <- app_assoc. simpl. f_equal. lia.
Qed.

(** A loop that appends to a list one item per element, computed from
    the list as it is at that time. *)
Lemma appending_loop_prefix {A B} (g : list B -> A -> B) l acc :
  exists tail,
    Extractor.for_in l acc (fun sections x => sections ++ [g sections x])
      = acc ++ tail
    /\ List.length tail = List.length l.
Proof.
  unfold Extractor.for_in.
  revert acc; induction l as [|x l IH]; intros acc; simpl.
  - exists []. now rewrite app_nil_r.
  - destruct (IH (acc ++ [g acc x])) as (tail & E & L).
    exists (g acc x :: tail). rewrite E, <- app_assoc. simpl. auto.
Qed.

Lemma appending_loop_nth {A B} (g : list B -> A -> B) l acc i x :
  nth_error l i = Some x ->
  let r := Extractor.for_in l acc (fun sections x => sections ++ [g sections x]) in
  nth_error r (List.length acc + i)
    = Some (g (firstn (List.length acc + i) r) x).
Proof.
  revert acc i; induction l as [|y l IH]; intros acc [|i]; simpl; try discriminate.
  - intros [= ->].
    destruct (appending_loop_prefix g l (acc ++ [g acc x])) as (tail & E & _).
    unfold Extractor.for_in in *. simpl. rewrite E, <- app_assoc, Nat.add_0_r.
    rewrite nth_error_app2 by lia. rewrite Nat.sub_diag. simpl.
    rewrite firstn_app, firstn_all, Nat.sub_diag. simpl. now rewrite app_nil_r.
  - intros H. specialize (IH (acc ++ [g acc y]) i H). simpl in IH.
    rewrite length_app in IH. simpl in IH.
    replace (List.length acc + S i) with (List.length acc + 1 + i) by lia.
    exact IH.
Qed.

Section Query_facts.
Context {bs : BeautifulSoup}.

(** A query by tag name alone selects by [is_tag]. *)
Lemma find_all_by_name (n : node) (name : str) :
  find_all n name [] = all_below n (is_tag name).
Proof.
  unfold find_all, all_below. apply filter_ext. intros x.
  unfold selected. simpl. now rewrite andb_true_r.
Qed.

Lemma hd_error_filter {A} (p : A -> bool) (l : list A) :
  match hd_error (filter p l) with
  | Some t => exists before after,
                l = before ++ t :: after /\ p t = true
                /\ Forall (fun x => p x = false) before
  | None => Forall (fun x => p x = false) l
  end.
Proof.
  induction l as [|x l IH]; simpl; [constructor|].
  destruct (p x) eqn:E; simpl.
  - exists [], l. auto.
  - destruct (hd_error (filter p l)) as [t|].
    + destruct IH as (before & after & -> & Pt & F).
      exists (x :: before), after. auto.
    + constructor; auto.
Qed.

(** [find] returns the first match in document order. *)
Lemma find_first (n : node) (name : str) (filter : list (str * str)) :
  first_below n (selected name filter) (find n name filter).
Proof.
  unfold first_below, find, find_all. apply hd_error_filter.
Qed.

Lemma first_below_ext (n : node) (p q : node -> bool) r :
  (forall x, p x = q x) -> first_below n p r -> first_below n q r.
Proof.
  intros E. unfold first_below. destruct r as [t|].
  - intros (b & a & D & P & F). exists b, a. rewrite <- E. repeat split; auto.
    eapply Forall_impl; [|exact F]. intros x Hx. simpl in *. congruence.
  - intros F. eapply Forall_impl; [|exact F]. intros x Hx. simpl in *. congruence.
Qed.

Lemma find_none_iff (n : node) (name : str) :
  find n name [] = None <-> all_below n (is_tag name) = [].
Proof.
  unfold find. rewrite find_all_by_name.
  destruct (all_below n (is_tag name)); simpl; split; congruence.
Qed.

End Query_facts.

(* ================================================================== *)
(** * The extraction passes *)
(* ================================================================== *)

Section Pass_facts.
Context {bs : BeautifulSoup}.

(** The name of a section depends on the sections built so far through
    their number only. *)
Lemma resolve_name_length (s1 s2 : list pyval) (section : node) :
  List.length s1 = List.length s2 ->
  Extractor.resolve_name s1 section = Extractor.resolve_name s2 section.
Proof. unfold Extractor.resolve_name. now intros ->. Qed.

Lemma sections_pass_length qp (soup : node) :
  List.length (Extractor.sections_pass qp soup) = List.length (sections_in soup).
Proof.
  unfold Extractor.sections_pass, sections_in. rewrite find_all_by_name.
  destruct (appending_loop_prefix
              (fun sections section =>
                 PDict [ (lit "name", PStr (Extractor.resolve_name sections section));
                         (lit "questions",
                           PList (qp (Extractor.resolve_name sections section) section)) ])
              (all_below soup (is_tag (lit "section"))) []) as (tail & E & L).
  simpl in E. unfold Extractor.for_in in *. rewrite E. exact L.
Qed.

Lemma sections_pass_nth qp (soup : node) i section :
  nth_error (sections_in soup) i = Some section ->
  let secs := Extractor.sections_pass qp soup in
  let name := Extractor.resolve_name (firstn i secs) section in
  nth_error secs i
  = Some (PDict [ (lit "name", PStr name);
                  (lit "questions", PList (qp name section)) ]).
Proof.
  intros H. unfold Extractor.sections_pass. rewrite find_all_by_name.
  exact (appending_loop_nth
           (fun sections section =>
              PDict [ (lit "name", PStr (Extractor.resolve_name sections section));
                      (lit "questions",
                        PList (qp (Extractor.resolve_name sections section) section)) ])
           _ [] _ H).
Qed.

Lemma sections_of_extract qp (soup : node) :
  sections_of (Extractor.extract qp soup) = Some (Extractor.sections_pass qp soup).
Proof. reflexivity. Qed.

Lemma metadata_of_extract qp (soup : node) :
  metadata_of (Extractor.extract qp soup) = Some (Extractor.metadata_pass soup).
Proof. reflexivity. Qed.

(** The loop over the five fields, unrolled. *)
Lemma metadata_pass_unrolled (soup : node) :
  Extractor.metadata_pass soup
  = map (fun field =>
           (fst field,
            Extractor.meta_value
              (find soup (lit "meta") [(lit "name", snd field)])))
        Extractor.meta_fields.
Proof. reflexivity. Qed.

Lemma selected_meta (meta_name : str) (x : node) :
  truthy meta_name = true ->
  selected (lit "meta") [(lit "name", meta_name)] x = is_meta_named meta_name x.
Proof.
  intros T. unfold selected, is_meta_named, attr_matches. simpl.
  rewrite andb_true_r. destruct (get x (lit "name")); auto.
  rewrite T. simpl. now rewrite andb_false_r.
Qed.

(** The three strategies in closed form: which one runs, and that the
    questions are numbered in the order of the elements they come from. *)
Lemma strategies_closed fallback (section_name : str) (section : node) :
  Extractor.strategies fallback section_name section
  = match textareas_of section with
    | _ :: _ =>
        indexed (Extractor.textarea_question fallback section section_name) 0
          (textareas_of section)
    | [] =>
        match filter has_text (labels_of section) with
        | _ :: _ =>
            indexed Extractor.label_question 0
              (filter has_text (labels_of section))
        | [] => [Extractor.section_question section_name]
        end
    end.
Proof.
  unfold Extractor.strategies, textareas_of, labels_of.
  rewrite !find_all_by_name.
  destruct (all_below section (is_tag (lit "textarea"))) as [|t ts] eqn:T.
  - rewrite (filtering_loop Extractor.label_question has_text). simpl.
    now destruct (filter has_text (all_below section (is_tag (lit "label")))).
  - rewrite <- T.
    rewrite (counting_loop
               (Extractor.textarea_question fallback section section_name)).
    rewrite T. reflexivity.
Qed.

Lemma converter_questions_closed (section_name : str) (section : node) :
  Converter.questions section_name section
  = indexed converter_question 0 (labels_of section).
Proof.
  unfold Converter.questions, labels_of. rewrite find_all_by_name.
  now rewrite (counting_loop converter_question).
Qed.

End Pass_facts.

(* ================================================================== *)
(** * Reading the input *)
(* ================================================================== *)

Section Reading_facts.
Context {proc : Os.Process}.
Import Os Files.

Lemma length_strip_zero (s : str) :
  Nat.eqb (List.length (strip s)) 0 = negb (truthy (strip s)).
Proof. now destruct (strip s). Qed.

Lemma blank_empty (s : str) : truthy s = false -> blank s.
Proof. destruct s; [reflexivity | discriminate]. Qed.

(** A file with text in it is read and handed on. *)
Lemma read_html_ok (s : fs) (filename : str) (content : bytes) :
  file_at s (absolute (join script_dir filename)) = Some content ->
  ~ blank (decoded content) ->
  read_html filename s = (s, Ok (decoded content)).
Proof.
  intros F NB. unfold read_html, bind, exists_, read_text. rewrite F. simpl.
  rewrite F. rewrite length_strip_zero, truthy_strip.
  assert (E : forallb isspace (decoded content) = false).
  { unfold blank in NB. now destruct (forallb isspace (decoded content)). }
  rewrite E. simpl.
  destruct (decoded content) eqn:D; [discriminate E | reflexivity].
Qed.

(** A file that is empty or holds white space only raises
    [ValueError]. *)
Lemma read_html_blank (s : fs) (filename : str) (content : bytes) :
  file_at s (absolute (join script_dir filename)) = Some content ->
  blank (decoded content) ->
  read_html filename s
  = (s, Raise (ValueError (lit "The file '" ++ filename
                             ++ lit "' appears to be empty"))).
Proof.
  intros F B. unfold read_html, bind, exists_, read_text. rewrite F. simpl.
  rewrite F. rewrite length_strip_zero, truthy_strip.
  unfold blank in B. rewrite B. simpl. now rewrite orb_true_r.
Qed.

(** A file that is not there raises [FileNotFoundError]. *)
Lemma read_html_missing (s : fs) (filename : str) :
  file_at s (absolute (join script_dir filename)) = None ->
  read_html filename s
  = (s, Raise (FileNotFoundError
                 (lit "HTML file '" ++ filename
                  ++ lit "' not found in the current directory"))).
Proof.
  intros F. unfold read_html, bind, exists_. now rewrite F.
Qed.

(** Reading never changes the files. *)
Lemma read_html_pure (s : fs) (filename : str) :
  fst (read_html filename s) = s.
Proof.
  destruct (file_at s (absolute (join script_dir filename))) as [content|] eqn:F.
  - destruct (forallb isspace (decoded content)) eqn:B.
    + now rewrite (read_html_blank _ _ F B).
    + rewrite (read_html_ok _ _ F); auto. unfold blank. congruence.
  - now rewrite (read_html_missing _ _ F).
Qed.

End Reading_facts.

(* ================================================================== *)
(** * Sections and their names *)
(* ================================================================== *)

Lemma extract_follows_source {bs : BeautifulSoup} qp (soup : node) :
  follows_source qp soup (Extractor.extract qp soup).
Proof.
  exists (Extractor.sections_pass qp soup). split; [reflexivity|]. split.
  - apply sections_pass_length.
  - apply Forall_forall. intros i Hi. apply in_seq in Hi.
    destruct (nth_error (sections_in soup) i) as [section|] eqn:E.
    + now apply sections_pass_nth.
    + apply nth_error_None in E. lia.
Qed.

(** C5.  For an input file with text in it (and for every text handed to
    the HTTP module, [text] below), the conversion returns a document
    whose sections are as many as the [section] elements of the parsed
    input and follow them in document order; the questions of a section
    follow the elements they are taken from (the [label] elements in
    [src/converter.py]; the [textarea] elements, or else the [label]
    elements with text, in the other two modules) and are numbered from
    0 in that order. *)
Theorem sections_and_questions_in_source_order
    (bs : BeautifulSoup) (proc : Os.Process)
    (s : Os.fs) (filename : str) (content : bytes) :
  Os.file_at s (Os.absolute (Os.join Os.script_dir filename)) = Some content ->
  ~ blank (Os.decoded content) ->
  let html_content := Os.decoded content in
  let soup := html_parser html_content in
  (exists doc,
      Converter.convert_html_to_json filename s = (s, Os.Ok doc)
      /\ follows_source Converter.questions soup doc)
  /\ (exists doc,
      RadReport.convert_html_to_json filename s = (s, Os.Ok doc)
      /\ follows_source RadReport.questions soup doc)
  /\ (forall text : str,
      exists doc,
        FastApi.convert_html_to_json text = Os.Ok doc
        /\ follows_source FastApi.questions (html_parser text) doc)
  /\ (forall name section,
      Converter.questions name section
      = indexed converter_question 0 (labels_of section))
  /\ (forall name section,
      RadReport.questions name section
      = match textareas_of section, filter has_text (labels_of section) with
        | _ :: _, _ =>
            indexed (Extractor.textarea_question RadReport.label_fallback
                       section name) 0 (textareas_of section)
        | [], _ :: _ =>
            indexed Extractor.label_question 0
              (filter has_text (labels_of section))
        | [], [] => [Extractor.section_question name]
        end)
  /\ (forall name section,
      FastApi.questions name section
      = match textareas_of section, filter has_text (labels_of section) with
        | _ :: _, _ =>
            indexed (Extractor.textarea_question FastApi.label_fallback
                       section name) 0 (textareas_of section)
        | [], _ :: _ =>
            indexed Extractor.label_question 0
              (filter has_text (labels_of section))
        | [], [] => [Extractor.section_question name]
        end).
Proof.
  intros F NB html_content soup.
  repeat split.
  - exists (Converter.extract soup). split.
    + unfold Converter.convert_html_to_json, Os.bind.
      now rewrite (read_html_ok _ _ F NB).
    + apply extract_follows_source.
  - exists (RadReport.extract soup). split.
    + unfold RadReport.convert_html_to_json, Os.bind.
      now rewrite (read_html_ok _ _ F NB).
    + apply extract_follows_source.
  - intros text. exists (FastApi.extract (html_parser text)).
    split; [reflexivity|]. apply extract_follows_source.
  - intros. apply converter_questions_closed.
  - intros. unfold RadReport.questions. rewrite strategies_closed.
    destruct (textareas_of section); auto.
  - intros. unfold FastApi.questions. rewrite strategies_closed.
    destruct (textareas_of section); auto.
Qed.

Lemma sections_and_questions_in_source_order_witness :
  let bs := Sample.library in
  let soup := Sample.report in
  (exists doc,
      Converter.convert_html_to_json (proc := Sample.process)
        (lit "report.html") Sample.disk = (Sample.disk, Os.Ok doc)
      /\ follows_source Converter.questions soup doc)
  /\ (exists doc,
      RadReport.convert_html_to_json (proc := Sample.process)
        (lit "report.html") Sample.disk = (Sample.disk, Os.Ok doc)
      /\ follows_source RadReport.questions soup doc).
Proof.
  intros bs soup.
  pose proof (@sections_and_questions_in_source_order
                Sample.library Sample.process Sample.disk
                (lit "report.html") Sample.report_html) as H.
  assert (F : Os.file_at Sample.disk
                (@Os.absolute Sample.process
                   (Os.join (@Os.script_dir Sample.process) (lit "report.html")))
              = Some Sample.report_html) by reflexivity.
  assert (NB : ~ blank (Os.decoded Sample.report_html))
    by (unfold blank; vm_compute; discriminate).
  destruct (H F NB) as (L & R & _).
  split; [exact L | exact R].
Defined.

Section Names.
Context {bs : BeautifulSoup}.

Lemma name_at_extract qp (soup : node) i section :
  nth_error (sections_in soup) i = Some section ->
  name_at (Extractor.extract qp soup) i
  = Some (PStr (Extractor.resolve_name
                  (firstn i (Extractor.sections_pass qp soup)) section)).
Proof.
  intros H. unfold name_at. rewrite sections_of_extract.
  now rewrite (sections_pass_nth qp soup i H).
Qed.

Lemma appended_before qp (soup : node) i section :
  nth_error (sections_in soup) i = Some section ->
  List.length (firstn i (Extractor.sections_pass qp soup)) = i.
Proof.
  intros H. rewrite length_firstn, sections_pass_length.
  assert (i < List.length (sections_in soup)); [|lia].
  apply nth_error_Some. congruence.
Qed.

End Names.

(** C7.  A [section] element without a [data-section-name] attribute and
    without a [header] element below it is named ["Section N"], where
    [N] is one more than the number of sections appended before it, which
    is its position [i] among the [section] elements. *)
Theorem synthesized_section_name
    (bs : BeautifulSoup) (soup : node) (i : nat) (section : node) :
  nth_error (sections_in soup) i = Some section ->
  get section (lit "data-section-name") = None ->
  headers_of section = [] ->
  let named doc :=
    (exists secs, sections_of doc = Some secs
                  /\ List.length (firstn i secs) = i)
    /\ name_at doc i = Some (PStr (lit "Section " ++ str_of_nat (i + 1))) in
  named (Converter.extract soup)
  /\ named (RadReport.extract soup)
  /\ named (FastApi.extract soup).
Proof.
  intros H A NH named.
  assert (G : forall qp, named (Extractor.extract qp soup)).
  { intros qp. split.
    - exists (Extractor.sections_pass qp soup). split; [reflexivity|].
      now apply appended_before with section.
    - rewrite (name_at_extract qp soup i H). do 2 f_equal.
      unfold Extractor.resolve_name. rewrite A.
      rewrite (proj2 (find_none_iff section (lit "header")) NH).
      now rewrite (appended_before qp soup i H). }
  repeat split; apply G.
Qed.

Lemma synthesized_section_name_witness :
  name_at (RadReport.extract (bs := Sample.library) Sample.report) 1
  = Some (PStr (lit "Section 2")).
Proof.
  apply (@synthesized_section_name Sample.library Sample.report 1
           Sample.impression); reflexivity.
Defined.



(* ================================================================== *)
(** * Metadata *)
(* ================================================================== *)

(** C6.  The metadata of every extracted document has the keys
    [identifier], [language], [publisher], [date], [creator], these only
    and in this order whatever the input.  The value under a key is the
    [content] attribute of the first [meta] element named [dcterms.]
    followed by the key, when there is such an element and the attribute
    is present and not empty; otherwise it is [None]. *)
Theorem metadata_has_the_five_keys (bs : BeautifulSoup) (soup : node) :
  let five := [ lit "identifier"; lit "language"; lit "publisher";
                lit "date"; lit "creator" ] in
  let fixed doc :=
    exists metadata,
      metadata_of doc = Some metadata
      /\ keys metadata = five
      /\ Forall (fun key =>
           exists meta_tag,
             first_below soup (is_meta_named (lit "dcterms." ++ key)) meta_tag
             /\ dict_get metadata key = Some (content_or_none meta_tag)) five in
  fixed (Converter.extract soup)
  /\ fixed (RadReport.extract soup)
  /\ fixed (FastApi.extract soup).
Proof.
  intros five fixed.
  assert (G : forall qp, fixed (Extractor.extract qp soup)).
  { intros qp. exists (Extractor.metadata_pass soup).
    split; [reflexivity|]. rewrite metadata_pass_unrolled.
    split; [reflexivity|].
    repeat constructor;
      match goal with
      | |- exists _, first_below _ (is_meta_named ?m) _ /\ _ =>
          exists (find soup (lit "meta") [(lit "name", m)]); split;
          [ apply first_below_ext with (p := selected (lit "meta") [(lit "name", m)]);
            [ intros x; apply selected_meta; reflexivity | apply find_first ]
          | reflexivity ]
      end. }
  repeat split; apply G.
Qed.

(* ================================================================== *)
(** * The questions of a section *)
(* ================================================================== *)

Section Question_facts.
Context {bs : BeautifulSoup}.

(** With a [textarea] element in the section, the questions are those
    of the [textarea] elements, one each and in their order; the [label]
    elements add none. *)
Lemma textarea_strategy fallback (name : str) (section : node) :
  textareas_of section <> [] ->
  Extractor.strategies fallback name section
  = indexed (Extractor.textarea_question fallback section name) 0
      (textareas_of section).
Proof.
  intros H. rewrite strategies_closed. now destruct (textareas_of section).
Qed.

(** Without [textarea] elements and without [label] elements that have
    text, the section gets the one placeholder question. *)
Lemma fallback_strategy fallback (name : str) (section : node) :
  textareas_of section = [] ->
  filter has_text (labels_of section) = [] ->
  Extractor.strategies fallback name section
  = [Extractor.section_question name].
Proof.
  intros T L. rewrite strategies_closed. now rewrite T, L.
Qed.

(** In [radreportconverter/converter.py] and [fastapi_converter.py] no
    section is left without a question. *)
Lemma strategies_not_empty fallback (name : str) (section : node) :
  Extractor.strategies fallback name section <> [].
Proof.
  rewrite strategies_closed.
  destruct (textareas_of section); [|discriminate].
  destruct (filter has_text (labels_of section)); discriminate.
Qed.

(** So every section of a document of these two modules has a
    question. *)
Lemma every_section_has_a_question fallback (soup : node) (section : pyval) :
  In section (Extractor.sections_pass (Extractor.strategies fallback) soup) ->
  exists q qs, questions_of section = Some (q :: qs).
Proof.
  intros I. apply In_nth_error in I. destruct I as [i I].
  assert (L : i < List.length (sections_in soup)).
  { rewrite <- (sections_pass_length (Extractor.strategies fallback)).
    apply nth_error_Some. congruence. }
  destruct (nth_error (sections_in soup) i) as [x|] eqn:E;
    [|apply nth_error_None in E; lia].
  rewrite (sections_pass_nth (Extractor.strategies fallback) soup i E) in I.
  injection I as <-.
  match goal with
  | |- exists q qs, questions_of (PDict [ _; (_, PList ?b) ]) = _ =>
      change (exists q qs, Some b = Some (q :: qs))
  end.
  match goal with
  | |- exists q qs, Some ?b = _ =>
      pose proof (strategies_not_empty fallback
                    (Extractor.resolve_name
                       (firstn i (Extractor.sections_pass
                                    (Extractor.strategies fallback) soup)) x)
                    x) as N;
      destruct b as [|q qs]; [congruence | exists q, qs; reflexivity]
  end.
Qed.

Lemma selected_label_for (id : str) (x : node) :
  selected (lit "label") [(lit "for", id)] x = is_label_for id x.
Proof. unfold selected, is_label_for. simpl. now rewrite andb_true_r. Qed.

Lemma strip_empty_text (s : str) :
  (if truthy s then strip s else []) = strip s.
Proof. now destruct s. Qed.

End Question_facts.

(** C2, at a section with a [label] and a [textarea] element:
    [src/converter.py] returns a question for the [label] and none for
    the [textarea], where the other two modules return the question of
    the [textarea] alone. *)
Theorem converter_section_with_textarea :
  let bs := Sample.library in
  let name := lit "Findings" in
  List.length (textareas_of Sample.findings) = 1
  /\ Converter.questions name Sample.findings
     = [ PDict [ (lit "id", PInt 0);
                 (lit "label", PStr (lit "Findings:"));
                 (lit "answer", PStr []) ] ]
  /\ RadReport.questions name Sample.findings
     = [ PDict [ (lit "id", PInt 0);
                 (lit "label", PStr (lit "Findings:"));
                 (lit "answer", PStr (lit "normal"));
                 (lit "field_type", PStr (lit "TEXTAREA"));
                 (lit "element_id", PStr (lit "f1")) ] ]
  /\ FastApi.questions name Sample.findings
     = RadReport.questions name Sample.findings.
Proof. repeat split. Qed.

(** C3, at a section without [textarea] and [label] elements:
    [src/converter.py] leaves the section without questions, where the
    other two modules give it the placeholder question. *)
Theorem converter_section_without_fields :
  let bs := Sample.library in
  let name := lit "Section 2" in
  textareas_of Sample.impression = []
  /\ labels_of Sample.impression = []
  /\ Converter.questions name Sample.impression = []
  /\ nth_error (Extractor.sections_pass Converter.questions Sample.report) 1
     = Some (PDict [ (lit "name", PStr name); (lit "questions", PList []) ])
  /\ RadReport.questions name Sample.impression
     = [ PDict [ (lit "id", PInt 0);
                 (lit "label", PStr name);
                 (lit "answer", PStr []);
                 (lit "field_type", PStr (lit "SECTION")) ] ]
  /\ FastApi.questions name Sample.impression
     = RadReport.questions name Sample.impression.
Proof. repeat split. Qed.

(** C1, at the empty text and at a text of three spaces: the HTTP module
    returns a document for them, where
    [radreportconverter/converter.py], given a file without content,
    raises [ValueError]. *)
Theorem fastapi_accepts_empty_text :
  (forall bs : BeautifulSoup,
      FastApi.convert_html_to_json []
      = Os.Ok (FastApi.extract (html_parser [])))
  /\ (forall bs : BeautifulSoup,
      FastApi.convert_html_to_json (lit "   ")
      = Os.Ok (FastApi.extract (html_parser (lit "   "))))
  /\ (forall bs : BeautifulSoup,
      RadReport.convert_html_to_json (proc := Sample.process)
        (lit "empty.html") [(lit "/app/empty.html", [])]
      = ([(lit "/app/empty.html", [])],
         Os.Raise (Os.ValueError (lit "The file 'empty.html' appears to be empty")))).
Proof. repeat split. Qed.

(** The file-reading modules refuse every blank file, and raise for
    nothing else than a blank or a missing file. *)
Lemma file_modules_refuse_blank_input
    (bs : BeautifulSoup) (proc : Os.Process)
    (s : Os.fs) (filename : str) (content : bytes) :
  Os.file_at s (Os.absolute (Os.join Os.script_dir filename)) = Some content ->
  let raised :=
    Os.Raise (Os.ValueError (lit "The file '" ++ filename
                               ++ lit "' appears to be empty")) in
  let returned extract :=
    Os.Ok (extract (html_parser (Os.decoded content))) in
  (blank (Os.decoded content) ->
     Converter.convert_html_to_json filename s = (s, raised)
     /\ RadReport.convert_html_to_json filename s = (s, raised))
  /\ (~ blank (Os.decoded content) ->
     Converter.convert_html_to_json filename s = (s, returned Converter.extract)
     /\ RadReport.convert_html_to_json filename s = (s, returned RadReport.extract)).
Proof.
  intros F raised returned.
  unfold Converter.convert_html_to_json, RadReport.convert_html_to_json, Os.bind.
  split; intros B.
  - now rewrite (read_html_blank _ _ F B).
  - now rewrite (read_html_ok _ _ F B).
Qed.




(* ================================================================== *)
(** * The batch interface *)
(* ================================================================== *)

Section Batch_facts.
Context {bs : BeautifulSoup} {proc : Os.Process}.
Import Os Files.

(** A loop writes nothing when its body writes nothing. *)
Lemma for_each_pure {A S : Type} (l : list A) (body : S -> A -> M S) :
  (forall st x s, fst (body st x s) = s) ->
  forall st s, fst (for_each l st body s) = s.
Proof.
  intros B. induction l as [|x l IH]; intros st s; simpl; auto.
  unfold bind. specialize (B st x s).
  destruct (body st x s) as [s' [st'|e]]; simpl in *; subst; auto.
Qed.

(** [save_json_output] of [radreportconverter/converter.py] returns the
    error dictionary when the file named after the output does not
    exist, raises [UnboundLocalError] when it does, and leaves the files
    as they are in both cases. *)
Lemma radreport_save_json_output (data : pyval) (filename : str) (s : fs) :
  RadReport.save_json_output data filename s
  = match file_at s (absolute (join script_dir filename)) with
    | None =>
        (s, Ok (PDict [(lit "error",
                        PStr (lit "File '" ++ filename ++ lit "' not found"))]))
    | Some _ => (s, Raise (UnboundLocalError (lit "output_filename")))
    end.
Proof.
  unfold RadReport.save_json_output, bind, exists_, read_text, read_local.
  destruct (file_at s (absolute (join script_dir filename))) eqn:F; simpl.
  - now rewrite F.
  - reflexivity.
Qed.

Lemma analyze_html_structure_pure (filename : str) (s : fs) :
  fst (RadReport.analyze_html_structure filename s) = s.
Proof.
  unfold RadReport.analyze_html_structure, bind, exists_, read_text.
  destruct (file_at s (absolute (join script_dir filename))) eqn:F; simpl.
  - now rewrite F.
  - reflexivity.
Qed.

Lemma radreport_convert_pure (filename : str) (s : fs) :
  fst (RadReport.convert_html_to_json filename s) = s.
Proof.
  unfold RadReport.convert_html_to_json, bind.
  pose proof (read_html_pure s filename) as P.
  destruct (read_html filename s) as [s' [h|e]]; simpl in *; now subst.
Qed.

(** The batch of [radreportconverter/converter.py] creates and changes
    no file at all, whatever the directory holds. *)
Lemma radreport_batch_never_writes (s : fs) :
  fst (RadReport.convert_all_html_files s) = s.
Proof.
  unfold RadReport.convert_all_html_files, bind, listdir. simpl.
  destruct (html_files_of _) as [|f fs0] eqn:E; [reflexivity|].
  match goal with
  | |- fst (match ?m s with _ => _ end) = s =>
      pose proof (for_each_pure (f :: fs0)
                    (fun (_ : unit) html_file =>
                       bind (RadReport.analyze_html_structure html_file)
                         (fun _ => ret tt))) as P1
  end.
  assert (B1 : forall (st : unit) x s0,
             fst (bind (RadReport.analyze_html_structure x)
                    (fun _ => ret tt) s0) = s0).
  { intros st x s0. unfold bind.
    pose proof (analyze_html_structure_pure x s0) as Q.
    destruct (RadReport.analyze_html_structure x s0) as [s1 [v|e]];
      simpl in *; now subst. }
  specialize (P1 B1 tt s).
  destruct (for_each (f :: fs0) tt _ s) as [s1 [u|e]]; simpl in P1; subst s1;
    [|reflexivity].
  match goal with
  | |- fst (match for_each _ _ ?body s with _ => _ end) = s =>
      pose proof (for_each_pure (f :: fs0) body) as P2
  end.
  match type of P2 with
  | ?H -> _ => assert (B2 : H)
  end.
  { intros [a b] x s0. unfold try_except, bind.
    pose proof (radreport_convert_pure x s0) as Q.
    destruct (RadReport.convert_html_to_json x s0) as [s1 [v|e]];
      simpl in *; subst s1; [|reflexivity].
    rewrite radreport_save_json_output.
    destruct (file_at s0 _); reflexivity. }
  specialize (P2 B2 (O, O) s).
  destruct (for_each (f :: fs0) (O, O) _ s) as [s1 [u'|e]]; simpl in *;
    now subst.
Qed.

End Batch_facts.

(** C8, at a directory that holds the one file [report.html]: the batch
    of [radreportconverter/converter.py] reports one success and no
    failure and the directory is as before, without [report.json]; on
    the same directory the batch of [src/converter.py] reports the same
    counts and has written [report.json], the indented JSON text of the
    converted document. *)
Theorem radreport_batch_writes_no_json :
  let bs := Sample.library in
  let proc := Sample.process in
  RadReport.convert_all_html_files Sample.disk
    = (Sample.disk, Os.Ok (Some (1, 0)))
  /\ Os.file_at Sample.disk (lit "/app/report.json") = None
  /\ (exists content,
        Converter.convert_all_html_files Sample.disk
          = (Sample.disk ++ [(lit "/app/report.json", content)],
             Os.Ok (Some (1, 0)))
        /\ Codec.utf8_encode (Json.dumps (Converter.extract Sample.report))
           = Some content).
Proof.
  repeat split.
  eexists. split; vm_compute; reflexivity.
Qed.

(* ================================================================== *)
(** * The codecs *)
(* ================================================================== *)

(** Settles the comparisons of the goal one by one. *)
Ltac cmp :=
  repeat match goal with
  | |- context [N.ltb ?a ?b] =>
      first [ replace (N.ltb a b) with true by (symmetry; apply N.ltb_lt; lia)
            | replace (N.ltb a b) with false by (symmetry; apply N.ltb_ge; lia) ]
  | |- context [N.leb ?a ?b] =>
      first [ replace (N.leb a b) with true by (symmetry; apply N.leb_le; lia)
            | replace (N.leb a b) with false by (symmetry; apply N.leb_gt; lia) ]
  | |- context [N.eqb ?a ?b] =>
      first [ replace (N.eqb a b) with true by (symmetry; apply N.eqb_eq; lia)
            | replace (N.eqb a b) with false by (symmetry; apply N.eqb_neq; lia) ]
  end.

Section Codec_facts.
Import Codec.
Local Open Scope N_scope.

Lemma decode_two (b0 b1 c : N) (rest : bytes) :
  0xC0 <= b0 < 0xE0 -> 0x80 <= b1 < 0xC0 ->
  c = (b0 - 0xC0) * 64 + (b1 - 0x80) -> 0x80 <= c ->
  utf8_decode (b0 :: b1 :: rest) = option_map (cons c) (utf8_decode rest).
Proof.
  intros H0 H1 -> Hc. cbn [utf8_decode]. unfold is_continuation.
  cmp; reflexivity.
Qed.

Lemma decode_three (b0 b1 b2 c : N) (rest : bytes) :
  0xE0 <= b0 < 0xF0 -> 0x80 <= b1 < 0xC0 -> 0x80 <= b2 < 0xC0 ->
  c = (b0 - 0xE0) * 4096 + (b1 - 0x80) * 64 + (b2 - 0x80) ->
  0x800 <= c -> is_surrogate c = false ->
  utf8_decode (b0 :: b1 :: b2 :: rest) = option_map (cons c) (utf8_decode rest).
Proof.
  intros H0 H1 H2 -> Hc S. cbn [utf8_decode]. unfold is_continuation.
  rewrite S.
  cmp; reflexivity.
Qed.

Lemma decode_four (b0 b1 b2 b3 c : N) (rest : bytes) :
  0xF0 <= b0 < 0xF8 -> 0x80 <= b1 < 0xC0 -> 0x80 <= b2 < 0xC0 ->
  0x80 <= b3 < 0xC0 ->
  c = (b0 - 0xF0) * 262144 + (b1 - 0x80) * 4096 + (b2 - 0x80) * 64 + (b3 - 0x80) ->
  0x10000 <= c < 0x110000 ->
  utf8_decode (b0 :: b1 :: b2 :: b3 :: rest)
  = option_map (cons c) (utf8_decode rest).
Proof.
  intros H0 H1 H2 H3 -> Hc. cbn [utf8_decode]. unfold is_continuation.
  cmp; reflexivity.
Qed.

Lemma utf8_char_roundtrip (c : char) (b rest : bytes) :
  utf8_encode_char c = Some b ->
  utf8_decode (b ++ rest) = option_map (cons c) (utf8_decode rest).
Proof.
  unfold utf8_encode_char.
  destruct (N.ltb_spec c 0x80).
  { intros [= <-]. cbn [app utf8_decode]. destruct (N.ltb_spec c 0x80); [reflexivity | lia]. }
  destruct (N.ltb_spec c 0x800).
  { intros E. assert (B : b = [0xC0 + c / 64; 0x80 + c mod 64]) by congruence.
    subst b. apply decode_two; lia. }
  destruct (N.ltb_spec c 0x10000).
  { destruct (is_surrogate c) eqn:S; [discriminate|].
    intros E.
    assert (B : b = [0xE0 + c / 4096; 0x80 + (c / 64) mod 64; 0x80 + c mod 64])
      by congruence.
    subst b. apply decode_three; auto; lia. }
  destruct (N.ltb_spec c 0x110000); [|discriminate].
  intros E.
  assert (B : b = [0xF0 + c / 262144; 0x80 + (c / 4096) mod 64;
                   0x80 + (c / 64) mod 64; 0x80 + c mod 64]) by congruence.
  subst b. apply decode_four; lia.
Qed.

Lemma utf8_roundtrip (s : str) (b : bytes) :
  utf8_encode s = Some b -> utf8_decode b = Some s.
Proof.
  revert b; induction s as [|c s IH]; intros b; simpl.
  - now intros [= <-].
  - destruct (utf8_encode_char c) as [bc|] eqn:C; [|discriminate].
    destruct (utf8_encode s) as [bs|]; [|discriminate].
    intros [= <-]. rewrite (@utf8_char_roundtrip c bc bs C), (IH bs eq_refl).
    reflexivity.
Qed.

Lemma utf8_encode_app (a b : str) :
  utf8_encode (a ++ b)
  = match utf8_encode a, utf8_encode b with
    | Some x, Some y => Some (x ++ y)
    | _, _ => None
    end.
Proof.
  induction a as [|c a IH]; simpl.
  - now destruct (utf8_encode b).
  - destruct (utf8_encode_char c) as [bc|]; [|reflexivity].
    rewrite IH. destruct (utf8_encode a), (utf8_encode b); auto.
    now rewrite app_assoc.
Qed.

(** Writing chunk by chunk succeeds exactly when the whole text can be
    encoded, and then writes its encoding. *)
Lemma encode_chunks_concat (chunks : list str) (b : bytes) :
  utf8_encode (List.concat chunks) = Some b ->
  Os.encode_chunks chunks = (b, true).
Proof.
  revert b; induction chunks as [|c chunks IH]; intros b; simpl.
  - now intros [= <-].
  - rewrite utf8_encode_app.
    destruct (utf8_encode c) as [bc|]; [|discriminate].
    destruct (utf8_encode (List.concat chunks)) as [bs|]; [|discriminate].
    intros [= <-]. now rewrite (IH bs eq_refl).
Qed.


Lemma utf8_encode_char_scalar (c : char) :
  is_scalar c = true -> exists b, utf8_encode_char c = Some b.
Proof.
  unfold is_scalar. rewrite andb_true_iff, negb_true_iff. intros [L S].
  unfold utf8_encode_char. rewrite S, L.
  repeat match goal with |- context [if ?x then _ else _] => destruct x end;
    eauto.
Qed.

Lemma utf8_encode_scalar (s : str) :
  forallb is_scalar s = true -> exists b, utf8_encode s = Some b.
Proof.
  induction s as [|c s IH]; cbn [forallb utf8_encode]; eauto.
  rewrite andb_true_iff. intros [Hc Hs].
  destruct (utf8_encode_char_scalar c Hc) as [bc ->].
  destruct (IH Hs) as [bs ->]. eauto.
Qed.

(** Text without carriage returns is read as it is. *)
Lemma universal_newlines_id (s : str) :
  forallb (fun c => negb (c =? 13)) s = true -> universal_newlines s = s.
Proof.
  induction s as [|c s IH]; cbn [forallb universal_newlines]; auto.
  rewrite andb_true_iff, negb_true_iff. intros [-> H]. now rewrite IH.
Qed.

End Codec_facts.

(* ================================================================== *)
(** * The persisted format: what is written is read back *)
(* ================================================================== *)

Section Json_facts.
Import Json.
Local Open Scope N_scope.

(** ** Strings *)

Lemma hex_digit_value (n : N) : n < 16 -> hex_value (hex_digit n) = Some n.
Proof.
  intros H. unfold hex_digit, hex_value.
  destruct (N.ltb_spec n 10); cmp; cbn [andb]; f_equal; lia.
Qed.

Lemma scanstring_escape (s rest : str) :
  scanstring (flat_map escape s ++ 34 :: rest) = Some (s, rest).
Proof.
  induction s as [|c s IH]; [reflexivity|].
  cbn [flat_map]. rewrite <- app_assoc. unfold escape at 1.
  destruct (N.eqb_spec c 34) as [->|]; [cbn; now rewrite IH|].
  destruct (N.eqb_spec c 92) as [->|]; [cbn; now rewrite IH|].
  destruct (N.eqb_spec c 10) as [->|]; [cbn; now rewrite IH|].
  destruct (N.eqb_spec c 13) as [->|]; [cbn; now rewrite IH|].
  destruct (N.eqb_spec c 9) as [->|]; [cbn; now rewrite IH|].
  destruct (N.eqb_spec c 8) as [->|]; [cbn; now rewrite IH|].
  destruct (N.eqb_spec c 12) as [->|]; [cbn; now rewrite IH|].
  destruct (N.ltb_spec c 32).
  - cbn [app scanstring].
    change (92 =? 34) with false. change (92 =? 92) with true.
    change (117 =? 117) with true. cbv iota.
    unfold hex4. change (hex_value 48) with (Some 0).
    rewrite !hex_digit_value by lia. 
    replace (((0 * 16 + 0) * 16 + c / 16) * 16 + c mod 16) with c by lia.
    cmp. cbn [andb]. now rewrite IH.
  - cbn [app scanstring]. cmp. now rewrite IH.
Qed.

(** ** Numbers *)

Lemma scan_digits_digits (u : Decimal.uint) (rest : str) :
  separates rest -> scan_digits (digits u ++ rest) = (u, rest).
Proof.
  intros S. induction u; cbn [digits app scan_digits];
    try (change (digit_of _) with (Some Decimal.D0) at 1 ||
         change (digit_of _) with (Some Decimal.D1) at 1 ||
         change (digit_of _) with (Some Decimal.D2) at 1 ||
         change (digit_of _) with (Some Decimal.D3) at 1 ||
         change (digit_of _) with (Some Decimal.D4) at 1 ||
         change (digit_of _) with (Some Decimal.D5) at 1 ||
         change (digit_of _) with (Some Decimal.D6) at 1 ||
         change (digit_of _) with (Some Decimal.D7) at 1 ||
         change (digit_of _) with (Some Decimal.D8) at 1 ||
         change (digit_of _) with (Some Decimal.D9) at 1);
    try (rewrite IHu; reflexivity).
  destruct rest as [|c r]; [reflexivity|]. cbn [scan_digits].
  destruct S as [-> _]. reflexivity.
Qed.

Lemma to_uint_canonical (n : N) (u : Decimal.uint) :
  N.to_uint n = Decimal.D0 u -> u = Decimal.Nil.
Proof.
  intros H.
  pose proof (DecimalN.Unsigned.to_of (N.to_uint n)) as E.
  rewrite DecimalN.Unsigned.of_to, H in E.
  unfold Decimal.unorm in E. rewrite DecimalFacts.nzhead_D0 in E.
  destruct (Decimal.nzhead u) eqn:Z; try congruence.
  exfalso. apply (@DecimalFacts.nzhead_nonzero u u). congruence.
Qed.

Lemma after_number (rest : str) (n : N) :
  separates rest ->
  match rest with
  | d :: _ => if (d =? 46) || (d =? 101) || (d =? 69) then None
              else Some (n, rest)
  | [] => Some (n, rest)
  end = Some (n, rest).
Proof.
  destruct rest as [|d r]; [reflexivity|]. intros [_ ->]. reflexivity.
Qed.

Lemma scan_natural_uint (u : Decimal.uint) (rest : str) :
  separates rest -> leading u = true ->
  scan_natural (digits u ++ rest) = Some (N.of_uint u, rest).
Proof.
  intros S L.
  destruct u; try discriminate L;
    match goal with
    | |- scan_natural (digits ?d ++ rest) = _ =>
        pose proof (@scan_digits_digits d rest S) as Q
    end;
    cbn [digits app] in Q; unfold scan_natural; cbn [digits app];
    rewrite Q;
    match goal with
    | |- context [digit_of ?c] =>
        let v := eval vm_compute in (digit_of c) in
        change (digit_of c) with v; cbv iota;
        let w := eval vm_compute in (c =? 48) in
        change (c =? 48) with w; cbv iota
    end;
    now apply after_number.
Qed.

Lemma scan_natural_digits (n : N) (rest : str) :
  separates rest ->
  scan_natural (digits (N.to_uint n) ++ rest) = Some (n, rest).
Proof.
  intros S.
  destruct n as [|p].
  - cbn. now apply after_number.
  - rewrite <- (DecimalN.Unsigned.of_to (N.pos p)) at 2.
    apply scan_natural_uint; auto.
    pose proof (@to_uint_canonical (N.pos p)) as C.
    pose proof (DecimalPos.Unsigned.to_uint_nonnil p) as NN.
    pose proof (DecimalPos.Unsigned.to_uint_nonzero p) as NZ.
    change (N.to_uint (N.pos p)) with (Pos.to_uint p) in *.
    destruct (Pos.to_uint p) as [|u|u|u|u|u|u|u|u|u|u]; try reflexivity.
    + congruence.
    + rewrite (C u eq_refl) in NZ. now elim NZ.
Qed.

Lemma digits_head (u : Decimal.uint) :
  u <> Decimal.Nil ->
  exists c t, digits u = c :: t /\ 48 <= c <= 57.
Proof.
  destruct u; try congruence; intros _; cbn [digits]; eexists _, _;
    (split; [reflexivity | lia]).
Qed.

Lemma intstr_head (z : Z) :
  exists c t, intstr z = c :: t /\ (48 <= c <= 57 \/ c = 45).
Proof.
  destruct z as [|p|p]; cbn [intstr].
  - exists 48, []. split; [reflexivity | lia].
  - destruct (@digits_head (N.to_uint (Z.to_N (Z.pos p)))) as (c & t & E & R).
    { apply DecimalPos.Unsigned.to_uint_nonnil. }
    exists c, t. auto.
  - eexists _, _. split; [reflexivity | lia].
Qed.

Lemma to_uint_nonnil (n : N) : N.to_uint n <> Decimal.Nil.
Proof.
  destruct n; [discriminate|]. apply DecimalPos.Unsigned.to_uint_nonnil.
Qed.

Lemma scan_once_natural (fuel : nat) (n : N) (rest : str) :
  separates rest ->
  scan_once (S fuel) (digits (N.to_uint n) ++ rest)
  = Some (PInt (Z.of_N n), rest).
Proof.
  intros S.
  pose proof (@scan_natural_digits n rest S) as Q.
  destruct (digits_head (@to_uint_nonnil n)) as (c & t & E & R).
  rewrite E in *. cbn [app] in *. cbn [scan_once]. cmp. rewrite Q.
  reflexivity.
Qed.

Lemma scan_once_int (fuel : nat) (z : Z) (rest : str) :
  separates rest ->
  scan_once (S fuel) (intstr z ++ rest) = Some (PInt z, rest).
Proof.
  intros S. destruct z as [|p|p].
  - apply (@scan_once_natural fuel 0 rest S).
  - apply (@scan_once_natural fuel (N.pos p) rest S).
  - cbn [intstr app scan_once].
    change (45 =? 34) with false. change (45 =? 123) with false.
    change (45 =? 91) with false. change (45 =? 110) with false.
    change (45 =? 45) with true. cbv iota.
    change (Pos.to_uint p) with (N.to_uint (N.pos p)).
    rewrite (@scan_natural_digits (N.pos p) rest S). reflexivity.
Qed.

(** ** The text of a value *)

Lemma list_chunks_first (level : nat) (sep buf : str) v l :
  List.concat (list_chunks (iterencode level) sep buf (v :: l))
  = buf ++ text_of level v
        ++ List.concat (list_chunks (iterencode level) sep sep l).
Proof.
  cbn [list_chunks]. rewrite concat_app. unfold text_of.
  destruct v as [|z|s|l0|d]; cbn [List.concat iterencode];
    rewrite ?app_nil_r, <- ?app_assoc; reflexivity.
Qed.

Lemma list_chunks_more (level : nat) l :
  List.concat (list_chunks (iterencode (S level))
                 (44 :: newline_indent (S level))
                 (44 :: newline_indent (S level)) l)
  = more_items level l.
Proof.
  induction l as [|v l IH]; [reflexivity|].
  rewrite list_chunks_first, IH. reflexivity.
Qed.

Lemma text_of_list (level : nat) v l :
  text_of level (PList (v :: l))
  = 91 :: newline_indent (S level) ++ text_of (S level) v
       ++ more_items level l ++ newline_indent level ++ [93].
Proof.
  unfold text_of at 1. cbn [iterencode]. rewrite concat_app.
  rewrite list_chunks_first, list_chunks_more.
  cbn [List.concat]. rewrite app_nil_r, <- !app_assoc. reflexivity.
Qed.

Lemma dict_chunks_more (level : nat) d :
  List.concat (dict_chunks (iterencode (S level))
                 (44 :: newline_indent (S level)) false d)
  = more_members level d.
Proof.
  induction d as [|[k v] d IH]; [reflexivity|].
  cbn [dict_chunks more_members fst snd].
  rewrite !concat_app, IH. cbn [List.concat app].
  rewrite ?app_nil_r, <- ?app_assoc. reflexivity.
Qed.

Lemma text_of_dict (level : nat) k v d :
  text_of level (PDict ((k, v) :: d))
  = 123 :: newline_indent (S level) ++ encode_basestring k ++ [58; 32]
        ++ text_of (S level) v
        ++ more_members level d ++ newline_indent level ++ [125].
Proof.
  unfold text_of at 1. cbn [iterencode dict_chunks].
  rewrite !concat_app, dict_chunks_more. cbn [List.concat app].
  rewrite ?app_nil_r, <- ?app_assoc. reflexivity.
Qed.

Lemma text_of_head (level : nat) (o : pyval) :
  exists c t, text_of level o = c :: t /\ value_start c.
Proof.
  unfold value_start.
  destruct o as [|z|s|[|v l]|[|[k v] d]];
    try rewrite text_of_list; try rewrite text_of_dict;
    try (eexists _, _; split;
         [reflexivity
         | repeat first [left; reflexivity | right]; reflexivity]).
  destruct (intstr_head z) as (c & t & E & R).
  exists c, t. unfold text_of. cbn [iterencode List.concat].
  rewrite app_nil_r. split; [exact E | lia].
Qed.

Lemma skip_ws_indent (level : nat) (s : str) :
  skip_ws (newline_indent level ++ s) = skip_ws s.
Proof.
  unfold newline_indent. cbn [app skip_ws].
  change (is_ws 10) with true. cbv iota.
  induction (2 * level)%nat as [|n IH]; [reflexivity|].
  cbn [repeat app skip_ws]. change (is_ws 32) with true. exact IH.
Qed.

Lemma skip_ws_stop (c : char) (s : str) :
  is_ws c = false -> skip_ws (c :: s) = c :: s.
Proof. intros H. cbn [skip_ws]. now rewrite H. Qed.

Lemma value_start_not_ws (c : char) : value_start c -> is_ws c = false.
Proof. unfold value_start, is_ws. intros H. cmp. reflexivity. Qed.

Lemma skip_ws_text (level : nat) (o : pyval) (s : str) :
  skip_ws (text_of level o ++ s) = text_of level o ++ s.
Proof.
  destruct (text_of_head level o) as (c & t & -> & V).
  apply skip_ws_stop. now apply value_start_not_ws.
Qed.

(** ** Containers *)

Lemma nodupb_NoDup (l : list str) : nodupb l = true <-> NoDup l.
Proof.
  induction l as [|k l IH]; cbn [nodupb].
  - split; [constructor | reflexivity].
  - rewrite andb_true_iff, negb_true_iff, IH. split.
    + intros [E N]. constructor; auto. intros I.
      assert (X : existsb (eqb k) l = true).
      { apply existsb_exists. exists k. split; auto. apply eqb_refl. }
      congruence.
    + intros N. inversion N as [|? ? NI N']; subst. split; auto.
      destruct (existsb (eqb k) l) eqn:X; auto.
      apply existsb_exists in X. destruct X as (k' & I & E).
      apply eqb_eq in E. subst. contradiction.
Qed.

Lemma dict_set_fresh (pairs : dict) (k : str) (v : pyval) :
  ~ In k (keys pairs) -> dict_set pairs k v = pairs ++ [(k, v)].
Proof.
  induction pairs as [|[k0 v0] pairs IH]; cbn [dict_set keys map fst app];
    [reflexivity|].
  intros N. destruct (eqb k0 k) eqn:E.
  - apply eqb_eq in E. subst. elim N. now left.
  - rewrite IH; auto. intros I. apply N. now right.
Qed.

Lemma separates_indent (level : nat) (s : str) :
  separates (newline_indent level ++ s).
Proof. split; reflexivity. Qed.

Lemma separates_more_items (level : nat) l (s : str) :
  separates (more_items level l ++ newline_indent level ++ s).
Proof.
  destruct l; [apply separates_indent | split; reflexivity].
Qed.

Lemma separates_more_members (level : nat) d (s : str) :
  separates (more_members level d ++ newline_indent level ++ s).
Proof.
  destruct d; [apply separates_indent | split; reflexivity].
Qed.

Section Loops.
Variable scan : str -> option (pyval * str).
Variable level : nat.
Variable rest : str.

Lemma array_items_text l :
  forall v values n,
    Forall (reads scan (S level)) (v :: l) ->
    (List.length l < n)%nat ->
    array_items scan n
      (text_of (S level) v ++ more_items level l
         ++ newline_indent level ++ 93 :: rest) values
    = Some (PList (values ++ v :: l), rest).
Proof.
  induction l as [|v' l IH]; intros v values n F L;
    (destruct n as [|n]; [lia|]); inversion F as [|? ? Rv F']; subst;
    cbn [array_items].
  - rewrite Rv by apply separates_more_items.
    cbn [more_items app]. rewrite skip_ws_indent.
    cbn [skip_ws]. change (is_ws 93) with false. cbv iota.
    change (93 =? 93) with true. reflexivity.
  - rewrite Rv by apply separates_more_items.
    cbn [more_items app]. cbn [skip_ws]. change (is_ws 44) with false.
    cbv iota. change (44 =? 93) with false. change (44 =? 44) with true.
    cbv iota. rewrite <- !app_assoc, skip_ws_indent, skip_ws_text.
    replace (values ++ v :: v' :: l) with ((values ++ [v]) ++ v' :: l)
      by (now rewrite <- app_assoc).
    apply IH; [exact F' | cbn [List.length] in L; lia].
Qed.

Lemma object_items_text d :
  forall k v pairs n,
    Forall (fun kv => reads scan (S level) (snd kv)) ((k, v) :: d) ->
    NoDup (keys (pairs ++ (k, v) :: d)) ->
    (List.length d < n)%nat ->
    object_items scan n
      (flat_map escape k ++ 34 :: 58 :: 32 :: text_of (S level) v
         ++ more_members level d ++ newline_indent level ++ 125 :: rest)
      pairs
    = Some (PDict (pairs ++ (k, v) :: d), rest).
Proof.
  induction d as [|[k' v'] d IH]; intros k v pairs n F N L;
    (destruct n as [|n]; [lia|]); inversion F as [|? ? Rv F']; subst;
    cbn [snd] in Rv; cbn [object_items];
    rewrite scanstring_escape; cbn [skip_ws];
    change (is_ws 58) with false; cbv iota;
    change (58 =? 58) with true; cbv iota;
    cbn [skip_ws]; change (is_ws 32) with true; cbv iota;
    rewrite skip_ws_text;
    rewrite Rv by apply separates_more_members;
    assert (Fresh : ~ In k (keys pairs))
      by (unfold keys in *; rewrite map_app in N;
          apply NoDup_remove_2 in N; intros I; apply N;
          apply in_or_app; now left).
  - cbn [more_members app]. rewrite skip_ws_indent.
    cbn [skip_ws]. change (is_ws 125) with false. cbv iota.
    change (125 =? 125) with true. cbv iota.
    now rewrite dict_set_fresh.
  - cbn [more_members app fst snd]. cbn [skip_ws].
    change (is_ws 44) with false. cbv iota.
    change (44 =? 125) with false. change (44 =? 44) with true. cbv iota.
    unfold encode_basestring. rewrite <- !app_assoc. rewrite skip_ws_indent.
    cbn [app skip_ws]. change (is_ws 34) with false. cbv iota.
    change (34 =? 34) with true. cbv iota.
    rewrite dict_set_fresh by exact Fresh.
    rewrite <- ?app_assoc. cbn [app].
    replace (pairs ++ (k, v) :: (k', v') :: d)
      with ((pairs ++ [(k, v)]) ++ (k', v') :: d)
      by (now rewrite <- app_assoc).
    apply IH.
    + exact F'.
    + now rewrite <- app_assoc.
    + cbn [List.length] in L; lia.
Qed.

End Loops.

(** ** Reading back what was written *)

Lemma depth_list (l : list pyval) :
  depth (PList l) = S (fold_right (fun v m => Nat.max (depth v) m) O l).
Proof. reflexivity. Qed.

Lemma depth_dict (d : dict) :
  depth (PDict d)
  = S (fold_right (fun kv m => Nat.max (depth (snd kv)) m) O d).
Proof. reflexivity. Qed.

Lemma depth_in (x : pyval) (l : list pyval) :
  In x l -> (depth x <= fold_right (fun v m => Nat.max (depth v) m) O l)%nat.
Proof.
  induction l as [|y l IH]; cbn [In fold_right]; [tauto|].
  intros [->|I]; [lia|]. specialize (IH I). lia.
Qed.

Lemma depth_in_dict (kv : str * pyval) (d : dict) :
  In kv d ->
  (depth (snd kv) <= fold_right (fun kv m => Nat.max (depth (snd kv)) m) O d)%nat.
Proof.
  induction d as [|y d IH]; cbn [In fold_right]; [tauto|].
  intros [->|I]; [lia|]. specialize (IH I). lia.
Qed.

Lemma more_items_length (level : nat) (l : list pyval) :
  (List.length l <= List.length (more_items level l))%nat.
Proof.
  induction l as [|v l IH]; cbn [more_items List.length]; [lia|].
  rewrite !length_app. lia.
Qed.

Lemma more_members_length (level : nat) (d : dict) :
  (List.length d <= List.length (more_members level d))%nat.
Proof.
  induction d as [|v d IH]; cbn [more_members List.length]; [lia|].
  rewrite !length_app. lia.
Qed.

Lemma value_start_cases (c : char) :
  value_start c ->
  (c =? 34) = true
  \/ (c =? 34) = false /\ (c =? 123) = true
  \/ (c =? 34) = false /\ (c =? 123) = false /\ (c =? 91) = true
  \/ (c =? 34) = false /\ (c =? 123) = false /\ (c =? 91) = false
     /\ (c =? 93) = false /\ (c =? 125) = false /\ (c =? 0xFEFF) = false.
Proof.
  unfold value_start. intros H.
  destruct (N.eqb_spec c 34); auto. destruct (N.eqb_spec c 123); auto.
  destruct (N.eqb_spec c 91); auto 6.
  do 3 right. repeat split; auto; apply N.eqb_neq; lia.
Qed.

Lemma value_start_not_close (c : char) :
  value_start c -> (c =? 93) = false /\ (c =? 125) = false /\ (c =? 0xFEFF) = false.
Proof. unfold value_start. intros H. repeat split; apply N.eqb_neq; lia. Qed.

Lemma scan_once_text (o : pyval) :
  distinct_keys o = true ->
  forall level fuel rest,
    (depth o <= fuel)%nat -> separates rest ->
    scan_once fuel (text_of level o ++ rest) = Some (o, rest).
Proof.
  induction o as [|z|s|l IH|d IH] using pyval_induction;
    intros W level fuel rest D Sep;
    (destruct fuel as [|fuel];
     [rewrite ?depth_list, ?depth_dict in D; cbn [depth] in D; lia|]).
  - reflexivity.
  - unfold text_of. cbn [iterencode List.concat]. rewrite app_nil_r.
    now apply scan_once_int.
  - unfold text_of. cbn [iterencode List.concat]. unfold encode_basestring.
    rewrite app_nil_r. cbn [app scan_once]. change (34 =? 34) with true.
    cbv iota. rewrite <- app_assoc. cbn [app]. now rewrite scanstring_escape.
  - destruct l as [|v l]; [reflexivity|].
    rewrite text_of_list. cbn [app scan_once].
    change (91 =? 34) with false. change (91 =? 123) with false.
    change (91 =? 91) with true. cbv iota.
    unfold parse_array. rewrite <- !app_assoc.
    rewrite skip_ws_indent, skip_ws_text.
    match goal with
    | |- context [array_items _ _ ?b _] => set (body := b)
    end.
    assert (HB : exists c t, body = c :: t /\ value_start c).
    { destruct (text_of_head (S level) v) as (c & t & E & V).
      unfold body. rewrite E. eexists _, _. split; [reflexivity | exact V]. }
    destruct HB as (c & t & HB & V). rewrite HB.
    destruct (value_start_not_close V) as (-> & _ & _).
    rewrite <- HB. unfold body. cbn [app].
    apply array_items_text.
    + cbn [distinct_keys] in W. rewrite forallb_forall in W.
      rewrite Forall_forall in IH. apply Forall_forall. intros x I R SR.
      apply IH; [exact I | apply W; exact I | | exact SR].
      rewrite depth_list in D. pose proof (@depth_in x (v :: l) I) as Hx.
      apply le_S_n in D. exact (Nat.le_trans _ _ _ Hx D).
    + pose proof (more_items_length level l).
      repeat (progress (cbn [app List.length]; rewrite ?length_app)). lia.
  - destruct d as [|[k v] d]; [reflexivity|].
    rewrite text_of_dict. cbn [app scan_once].
    change (123 =? 34) with false. change (123 =? 123) with true. cbv iota.
    unfold parse_object, encode_basestring.
    repeat (progress (rewrite <- ?app_assoc; cbn [app])).
    rewrite skip_ws_indent. cbn [app skip_ws]. change (is_ws 34) with false.
    cbv iota. change (34 =? 125) with false. change (34 =? 34) with true.
    cbv iota.
    apply (@object_items_text (scan_once fuel) level rest d k v []).
    + cbn [distinct_keys] in W. apply andb_true_iff in W. destruct W as [_ W].
      rewrite forallb_forall in W.
      rewrite Forall_forall in IH. apply Forall_forall. intros x I R SR.
      apply IH; [exact I | apply W; exact I | | exact SR].
      rewrite depth_dict in D.
      pose proof (@depth_in_dict x ((k, v) :: d) I) as Hx.
      apply le_S_n in D. exact (Nat.le_trans _ _ _ Hx D).
    + cbn [distinct_keys] in W. apply andb_true_iff in W. destruct W as [W _].
      now apply nodupb_NoDup.
    + pose proof (more_members_length level d).
      repeat (progress (cbn [app List.length]; rewrite ?length_app)). lia.
Qed.

Lemma depth_le_length (o : pyval) :
  forall level, (depth o <= List.length (text_of level o))%nat.
Proof.
  induction o as [|z|s|l IH|d IH] using pyval_induction;
    intros level;
    try (match goal with
         | |- context [text_of level ?o] =>
             destruct (text_of_head level o) as (c & t & -> & _)
         end; cbn [depth List.length]; lia).
  - destruct l as [|v l]; [cbn; lia|].
    rewrite text_of_list. cbn [depth List.length]. rewrite !length_app.
    assert (G : forall l0, Forall (fun x => forall level, (depth x <= List.length (text_of level x))%nat) l0 ->
              (fold_right (fun v m => Nat.max (depth v) m) O l0
               <= List.length (more_items level l0))%nat).
    { induction 1 as [|x l0 Hx _ IHl]; cbn [fold_right more_items List.length]; [lia|].
      rewrite !length_app. specialize (Hx (S level)). lia. }
    inversion IH as [|? ? Hv Hl]; subst.
    specialize (G l Hl). specialize (Hv (S level)). cbn [fold_right]. lia.
  - destruct d as [|[k v] d]; [cbn; lia|].
    rewrite text_of_dict. cbn [depth List.length]. rewrite !length_app.
    assert (G : forall d0, Forall (fun kv => forall level, (depth (snd kv) <= List.length (text_of level (snd kv)))%nat) d0 ->
              (fold_right (fun kv m => Nat.max (depth (snd kv)) m) O d0
               <= List.length (more_members level d0))%nat).
    { induction 1 as [|x d0 Hx _ IHl]; cbn [fold_right more_members List.length]; [lia|].
      rewrite !length_app. specialize (Hx (S level)). lia. }
    inversion IH as [|? ? Hv Hl]; subst.
    specialize (G d Hl). specialize (Hv (S level)). cbn [fold_right snd] in *. lia.
Qed.

(** What [json.dumps] writes, [json.loads] reads back. *)
Theorem loads_dumps (o : pyval) :
  distinct_keys o = true -> loads (dumps o) = Some o.
Proof.
  intros W. unfold loads, dumps. fold (text_of 0 o).
  destruct (text_of_head 0 o) as (c & t & E & V).
  destruct (value_start_not_close V) as (_ & _ & B).
  assert (H0 : startswith (text_of 0 o) [0xFEFF] = false).
  { rewrite E. cbn [startswith]. rewrite N.eqb_sym, B. reflexivity. }
  rewrite H0.
  rewrite <- (app_nil_r (text_of 0 o)) at 2.
  rewrite skip_ws_text, scan_once_text; auto.
  - pose proof (depth_le_length o 0). lia.
  - exact I.
Qed.

End Json_facts.

(* ================================================================== *)
(** * The characters of the JSON text *)
(* ================================================================== *)

Section Text_characters.
Import Json.
Local Open Scope N_scope.

(** A property of characters that the syntax of JSON has. *)
Variable q : char -> bool.
Hypothesis q_syntax : forall c, syntax_char c = true -> q c = true.

Lemma hex_digit_syntax (n : N) : n < 16 -> syntax_char (hex_digit n) = true.
Proof.
  intros H. unfold hex_digit, syntax_char.
  destruct (N.ltb_spec n 10); cmp; reflexivity.
Qed.

Lemma escape_chars (c : char) :
  escaped_or q c = true -> forallb q (escape c) = true.
Proof.
  unfold escaped_or, escape. intros H.
  repeat match goal with
         | |- context [if N.eqb c ?k then _ else _] =>
             destruct (N.eqb_spec c k);
             [cbn [forallb]; rewrite !q_syntax by reflexivity; reflexivity|]
         end.
  destruct (N.ltb_spec c 32).
  - cbn [forallb]. rewrite !q_syntax; try reflexivity;
      apply hex_digit_syntax; lia.
  - cbn [forallb]. cbn [orb] in H. now rewrite H.
Qed.

Lemma basestring_chars (s : str) :
  forallb (escaped_or q) s = true -> forallb q (encode_basestring s) = true.
Proof.
  intros H. unfold encode_basestring. cbn [forallb].
  rewrite forallb_app. cbn [forallb]. rewrite !q_syntax by reflexivity.
  rewrite andb_true_r. cbn [andb].
  induction s as [|c s IH]; [reflexivity|].
  cbn [forallb flat_map] in *. apply andb_true_iff in H. destruct H as [Hc Hs].
  rewrite forallb_app, (escape_chars c Hc), (IH Hs). reflexivity.
Qed.

Lemma digits_chars (u : Decimal.uint) : forallb q (digits u) = true.
Proof.
  induction u; cbn [digits forallb]; auto;
    rewrite q_syntax by reflexivity; exact IHu.
Qed.

Lemma intstr_chars (z : Z) : forallb q (intstr z) = true.
Proof.
  destruct z; cbn [intstr forallb]; rewrite ?q_syntax by reflexivity;
    apply digits_chars.
Qed.

Lemma indent_chars (level : nat) : forallb q (newline_indent level) = true.
Proof.
  unfold newline_indent. cbn [forallb]. rewrite q_syntax by reflexivity.
  induction (2 * level)%nat; cbn [repeat forallb]; auto.
  now rewrite q_syntax by reflexivity.
Qed.

Lemma text_chars (o : pyval) :
  forall level,
    strings_all (escaped_or q) o = true -> forallb q (text_of level o) = true.
Proof.
  induction o as [|z|s|l IH|d IH] using pyval_induction; intros level H.
  - cbn. now rewrite !q_syntax by reflexivity.
  - unfold text_of. cbn [iterencode List.concat]. rewrite app_nil_r.
    apply intstr_chars.
  - unfold text_of. cbn [iterencode List.concat]. rewrite app_nil_r.
    now apply basestring_chars.
  - destruct l as [|v l]; [cbn; now rewrite !q_syntax by reflexivity|].
    rewrite text_of_list. cbn [forallb]. rewrite !forallb_app.
    cbn [strings_all forallb] in H. apply andb_true_iff in H.
    destruct H as [Hv Hl]. inversion IH as [|? ? IHv IHl]; subst.
    rewrite !andb_true_iff; repeat split;
      try apply indent_chars; try (apply q_syntax; reflexivity);
      try (cbn [forallb]; rewrite !q_syntax by reflexivity; reflexivity); try (apply IHv; exact Hv).
    clear IH IHv Hv. induction l as [|x l IHx]; [reflexivity|].
    cbn [more_items forallb] in *. rewrite !forallb_app.
    apply andb_true_iff in Hl. destruct Hl as [Hx Hl].
    inversion IHl as [|? ? IH1 IH2]; subst.
    rewrite !andb_true_iff; repeat split;
      try apply indent_chars; try (apply q_syntax; reflexivity);
      try (apply IH1; exact Hx).
    exact (IHx Hl IH2).
  - destruct d as [|[k v] d]; [cbn; now rewrite !q_syntax by reflexivity|].
    rewrite text_of_dict. cbn [forallb]. rewrite !forallb_app.
    cbn [strings_all forallb fst snd] in H. apply andb_true_iff in H.
    destruct H as [Hkv Hd]. apply andb_true_iff in Hkv. destruct Hkv as [Hk Hv].
    inversion IH as [|? ? IHv IHd]; subst. cbn [snd] in IHv.
    rewrite !andb_true_iff; repeat split;
      try apply indent_chars; try (apply q_syntax; reflexivity);
      try (cbn [forallb]; rewrite !q_syntax by reflexivity; reflexivity);
      try (apply basestring_chars; exact Hk); try (apply IHv; exact Hv).
    clear IH IHv Hv Hk. induction d as [|x d IHx]; [reflexivity|].
    cbn [more_members forallb] in *. rewrite !forallb_app.
    apply andb_true_iff in Hd. destruct Hd as [Hx Hd].
    apply andb_true_iff in Hx. destruct Hx as [Hxk Hxv].
    inversion IHd as [|? ? IH1 IH2]; subst.
    rewrite !andb_true_iff; repeat split;
      try apply indent_chars; try (apply q_syntax; reflexivity);
      try (cbn [forallb]; rewrite !q_syntax by reflexivity; reflexivity);
      try (apply basestring_chars; exact Hxk); try (apply IH1; exact Hxv).
    exact (IHx Hd IH2).
Qed.

End Text_characters.

Lemma strings_all_true (p : char -> bool) (o : pyval) :
  (forall c, p c = true) -> strings_all p o = true.
Proof.
  intros T. induction o as [|z|s|l IH|d IH] using pyval_induction;
    cbn [strings_all]; auto.
  - apply forallb_forall. auto.
  - apply forallb_forall. rewrite Forall_forall in IH. auto.
  - apply forallb_forall. rewrite Forall_forall in IH. intros kv I.
    apply andb_true_iff. split; [apply forallb_forall; auto | exact (IH kv I)].
Qed.

Lemma strings_all_impl (p p' : char -> bool) (o : pyval) :
  (forall c, p c = true -> p' c = true) ->
  strings_all p o = true -> strings_all p' o = true.
Proof.
  intros T. induction o as [|z|s|l IH|d IH] using pyval_induction;
    cbn [strings_all]; auto.
  - rewrite !forallb_forall. auto.
  - rewrite !forallb_forall. rewrite Forall_forall in IH. auto.
  - rewrite !forallb_forall. rewrite Forall_forall in IH. intros H kv I.
    specialize (H kv I). apply andb_true_iff in H. destruct H as [Hk Hv].
    apply andb_true_iff. split; [|exact (IH kv I Hv)].
    rewrite forallb_forall in *. auto.
Qed.

(** The text that is written has no carriage return in it. *)
Lemma dumps_no_cr (o : pyval) :
  forallb (fun c => negb (N.eqb c 13)) (Json.dumps o) = true.
Proof.
  apply (@text_chars (fun c => negb (N.eqb c 13))).
  - intros c. unfold syntax_char. destruct (N.eqb_spec c 13) as [->|]; auto.
  - apply strings_all_true. intros c. unfold escaped_or.
    destruct (N.eqb_spec c 13) as [->|]; auto. now rewrite orb_true_r.
Qed.

(** The text of a value whose strings are Unicode text can be encoded. *)
Lemma dumps_scalar (o : pyval) :
  strings_all is_scalar o = true ->
  forallb is_scalar (Json.dumps o) = true.
Proof.
  intros H. apply (@text_chars is_scalar).
  - intros c. unfold syntax_char, is_scalar, Codec.is_surrogate.
    rewrite orb_true_iff, andb_true_iff, N.leb_le, N.ltb_lt, N.eqb_eq.
    intros S. cmp. reflexivity.
  - apply strings_all_impl with (p := is_scalar); auto.
    intros c Hc. unfold escaped_or. rewrite Hc. apply orb_true_r.
Qed.

(* ================================================================== *)
(** * Saving a document and reading it back *)
(* ================================================================== *)

Section Extracted_values.
Context {bs : BeautifulSoup}.

Lemma indexed_forallb {A : Type} (p : pyval -> bool) (f : nat -> A -> pyval)
    (i : nat) (l : list A) :
  (forall i x, p (f i x) = true) -> forallb p (indexed f i l) = true.
Proof.
  intros H. revert i. induction l as [|x l IH]; intros i; cbn [indexed forallb];
    auto. now rewrite H, IH.
Qed.

Lemma appending_loop_forallb {A : Type} (p : pyval -> bool)
    (g : list pyval -> A -> pyval) (l : list A) :
  (forall acc x, p (g acc x) = true) ->
  forall acc, forallb p acc = true ->
  forallb p (Extractor.for_in l acc (fun sections x => sections ++ [g sections x]))
  = true.
Proof.
  intros H. unfold Extractor.for_in.
  induction l as [|x l IH]; intros acc Hacc; cbn [fold_left]; auto.
  apply IH. rewrite forallb_app, Hacc. cbn [forallb]. now rewrite H.
Qed.

Lemma converter_questions_distinct (name : str) (section : node) :
  forallb distinct_keys (Converter.questions name section) = true.
Proof.
  rewrite converter_questions_closed. apply indexed_forallb. reflexivity.
Qed.

Lemma strategies_distinct fallback (name : str) (section : node) :
  forallb distinct_keys (Extractor.strategies fallback name section) = true.
Proof.
  rewrite strategies_closed.
  destruct (textareas_of section); [|apply indexed_forallb; reflexivity].
  destruct (filter has_text (labels_of section));
    [reflexivity | apply indexed_forallb; reflexivity].
Qed.

Lemma meta_value_distinct (meta_tag : option node) :
  distinct_keys (Extractor.meta_value meta_tag) = true.
Proof.
  unfold Extractor.meta_value. destruct meta_tag as [t|]; auto.
  destruct (get t (lit "content")) as [c|]; auto. now destruct (truthy c).
Qed.

(** A document has no key twice when the questions have none. *)
Lemma extract_distinct qp (soup : node) :
  (forall name section, forallb distinct_keys (qp name section) = true) ->
  distinct_keys (Extractor.extract qp soup) = true.
Proof.
  intros Q. unfold Extractor.extract.
  assert (M : distinct_keys (PDict (Extractor.metadata_pass soup)) = true).
  { rewrite metadata_pass_unrolled.
    cbn [distinct_keys map fst snd forallb Extractor.meta_fields].
    rewrite !meta_value_distinct. reflexivity. }
  assert (S : distinct_keys (PList (Extractor.sections_pass qp soup)) = true).
  { cbn [distinct_keys]. unfold Extractor.sections_pass.
    apply (appending_loop_forallb distinct_keys
             (fun sections section =>
                PDict [ (lit "name",
                          PStr (Extractor.resolve_name sections section));
                        (lit "questions",
                          PList (qp (Extractor.resolve_name sections section)
                                   section)) ])); [|reflexivity].
    intros acc x. cbn [distinct_keys map fst snd forallb].
    rewrite Q. reflexivity. }
  cbn [distinct_keys map fst snd forallb] in *.
  rewrite M. cbn [distinct_keys] in S. rewrite S. reflexivity.
Qed.

Lemma extracts_distinct (soup : node) :
  distinct_keys (Converter.extract soup) = true
  /\ distinct_keys (RadReport.extract soup) = true
  /\ distinct_keys (FastApi.extract soup) = true.
Proof.
  repeat split; apply extract_distinct; intros;
    first [apply converter_questions_distinct | apply strategies_distinct].
Qed.

End Extracted_values.

Section Persisting.
Context {proc : Os.Process}.
Import Os.

Lemma file_at_store (s : fs) (path : str) (content : bytes) :
  file_at (store s path content) path = Some content.
Proof.
  induction s as [|[p c] s IH]; cbn [store file_at].
  - now rewrite eqb_refl.
  - destruct (eqb p path) eqn:E; cbn [file_at]; now rewrite E.
Qed.

(** A value without repeated keys whose strings are Unicode text is
    written in full, and what is read back from the file is the value. *)
Lemma save_then_read_back (data : pyval) (output_filename : str) (s : fs) :
  distinct_keys data = true ->
  strings_all is_scalar data = true ->
  exists content,
    Codec.utf8_encode (Json.dumps data) = Some content
    /\ Converter.save_json_output data (Some output_filename) s
       = (store s (absolute output_filename) content, Ok tt)
    /\ read_back (store s (absolute output_filename) content) output_filename
       = Some data.
Proof.
  intros W U.
  destruct (utf8_encode_scalar _ (dumps_scalar data U)) as [content E].
  exists content. split; [exact E|]. split.
  - unfold Converter.save_json_output, write_chunks.
    now rewrite (encode_chunks_concat (Json.iterencode 0 data) E).
  - unfold read_back. rewrite file_at_store.
    rewrite (utf8_roundtrip _ E).
    rewrite (universal_newlines_id _ (dumps_no_cr data)).
    now apply loads_dumps.
Qed.

End Persisting.




(* ================================================================== *)
(** * The shape of a document *)
(* ================================================================== *)

Import Shape.

Lemma appending_loop_Forall {A B : Type} (P : B -> Prop)
    (g : list B -> A -> B) (l : list A) :
  (forall acc x, In x l -> P (g acc x)) ->
  forall acc, Forall P acc ->
  Forall P (Extractor.for_in l acc (fun sections x => sections ++ [g sections x])).
Proof.
  unfold Extractor.for_in.
  induction l as [|x l IH]; intros H acc Hacc; cbn [fold_left]; auto.
  apply IH.
  - intros acc' y I. apply H. now right.
  - apply Forall_app. split; auto. constructor; auto. apply H. now left.
Qed.

Lemma indexed_Forall {A B : Type} (P : B -> Prop) (f : nat -> A -> B)
    (i : nat) (l : list A) :
  (forall i x, In x l -> P (f i x)) -> Forall P (indexed f i l).
Proof.
  revert i. induction l as [|x l IH]; intros i H; cbn [indexed]; constructor.
  - apply H. now left.
  - apply IH. intros j y I. apply H. now right.
Qed.

Lemma indexed_In {A B : Type} (f : nat -> A -> B) (i : nat) (l : list A) y :
  In y (indexed f i l) -> exists k x, nth_error l k = Some x /\ y = f (i + k) x.
Proof.
  revert i. induction l as [|x l IH]; intros i; cbn [indexed]; [intros []|].
  intros [<-|I].
  - exists 0, x. rewrite Nat.add_0_r. auto.
  - destruct (IH _ I) as (k & z & N & ->). exists (S k), z. split; auto.
    f_equal. lia.
Qed.

Section Shape_facts.
Context {bs : BeautifulSoup}.

(** The name of a section as a function of its position. *)
Lemma resolve_name_at (sections : list pyval) (section : node) :
  Extractor.resolve_name sections section
  = resolved_at (List.length sections) section.
Proof.
  unfold Extractor.resolve_name, resolved_at, find, headers_of.
  rewrite find_all_by_name.
  destruct (get section (lit "data-section-name")) as [[|c name]|]; reflexivity.
Qed.

(** Where a section of a document comes from. *)
Lemma sections_pass_source qp (soup : node) (sec : pyval) :
  In sec (Extractor.sections_pass qp soup) ->
  exists i section,
    nth_error (sections_in soup) i = Some section
    /\ nth_error (Extractor.sections_pass qp soup) i = Some sec
    /\ sec = PDict [ (lit "name", PStr (resolved_at i section));
                     (lit "questions", PList (qp (resolved_at i section) section)) ].
Proof.
  intros I. apply In_nth_error in I. destruct I as [i I].
  assert (L : i < List.length (sections_in soup)).
  { rewrite <- (sections_pass_length qp). apply nth_error_Some. congruence. }
  destruct (nth_error (sections_in soup) i) as [x|] eqn:E;
    [|apply nth_error_None in E; lia].
  exists i, x. split; [exact E|]. split; [exact I|].
  pose proof (sections_pass_nth qp soup i E) as N. cbv zeta in N.
  rewrite resolve_name_at, (appended_before qp soup i E) in N.
  congruence.
Qed.

Lemma sections_pass_at qp (soup : node) (i : nat) (section : node) :
  nth_error (sections_in soup) i = Some section ->
  nth_error (Extractor.sections_pass qp soup) i
  = Some (PDict [ (lit "name", PStr (resolved_at i section));
                  (lit "questions", PList (qp (resolved_at i section) section)) ]).
Proof.
  intros E. pose proof (sections_pass_nth qp soup i E) as N. cbv zeta in N.
  now rewrite resolve_name_at, (appended_before qp soup i E) in N.
Qed.

End Shape_facts.

(** X1.  Whatever the page, the document of each of the three modules is
    a dictionary with the keys [title], [metadata], [sections] in this
    order.  The title is the trimmed text of the first [title] element,
    and ["Untitled Document"] without one; every section is a dictionary
    with the keys [name] and [questions] in this order, a string and a
    list. *)
Theorem document_shape (bs : BeautifulSoup) (soup : node) :
  let shaped doc :=
    keys_of doc = document_keys
    /\ (exists title_tag,
          first_below soup (is_tag (lit "title")) title_tag
          /\ field "title" doc
             = Some (PStr match title_tag with
                          | Some t => strip (text t)
                          | None => lit "Untitled Document"
                          end))
    /\ (exists secs,
          sections_of doc = Some secs
          /\ Forall (fun sec =>
               keys_of sec = section_keys
               /\ exists name questions,
                    field "name" sec = Some (PStr name)
                    /\ questions_of sec = Some questions) secs) in
  shaped (Converter.extract soup)
  /\ shaped (RadReport.extract soup)
  /\ shaped (FastApi.extract soup).
Proof.
  intros shaped.
  assert (G : forall qp, shaped (Extractor.extract qp soup)).
  { intros qp. split; [reflexivity|]. split.
    - exists (find soup (lit "title") []). split.
      + apply first_below_ext with (p := selected (lit "title") []).
        * intros x. unfold selected. simpl. apply andb_true_r.
        * apply find_first.
      + reflexivity.
    - exists (Extractor.sections_pass qp soup). split; [reflexivity|].
      apply Forall_forall. intros sec I.
      destruct (sections_pass_source qp soup sec I) as (i & section & _ & _ & ->).
      split; [reflexivity|]. eexists. eexists. split; reflexivity. }
  repeat split; apply G.
Qed.

(** X2.  The questions of [src/converter.py] have the keys [id],
    [label], [answer].  Those of the other two modules have the keys
    [id], [label], [answer], [field_type], and [element_id] after them
    exactly when the section has a [textarea] element below it; so the
    questions of one section all have the same keys. *)
Theorem question_keys_by_section
    (bs : BeautifulSoup) (name : str) (section : node) :
  let keyed keys questions := Forall (fun q => keys_of q = keys) questions in
  let expected :=
    match textareas_of section with
    | [] => question_keys
    | _ :: _ => textarea_question_keys
    end in
  keyed plain_question_keys (Converter.questions name section)
  /\ keyed expected (RadReport.questions name section)
  /\ keyed expected (FastApi.questions name section).
Proof.
  intros keyed expected. unfold keyed, expected.
  unfold RadReport.questions, FastApi.questions.
  rewrite converter_questions_closed, !strategies_closed.
  split; [apply indexed_Forall; reflexivity|].
  destruct (textareas_of section).
  - destruct (filter has_text (labels_of section)).
    + split; repeat constructor.
    + split; apply indexed_Forall; reflexivity.
  - split; apply indexed_Forall; reflexivity.
Qed.

(** X3.  The name of the section at position [i] is the
    [data-section-name] attribute of its element when that is present
    and not empty, taken as it is (not trimmed); otherwise the trimmed
    text of the first [header] element below it; and ["Section N"] with
    [N = i + 1] when there is no [header] either. *)
Theorem section_name_rule
    (bs : BeautifulSoup) (soup : node) (i : nat) (section : node) :
  nth_error (sections_in soup) i = Some section ->
  let name :=
    match get section (lit "data-section-name") with
    | Some (c :: attribute) => c :: attribute
    | _ =>
        match hd_error (headers_of section) with
        | Some header => strip (text header)
        | None => lit "Section " ++ str_of_nat (i + 1)
        end
    end in
  name_at (Converter.extract soup) i = Some (PStr name)
  /\ name_at (RadReport.extract soup) i = Some (PStr name)
  /\ name_at (FastApi.extract soup) i = Some (PStr name).
Proof.
  intros H name.
  assert (G : forall qp, name_at (Extractor.extract qp soup) i
                         = Some (PStr name)).
  { intros qp. unfold name_at. rewrite sections_of_extract.
    now rewrite (sections_pass_at qp soup i H). }
  repeat split; apply G.
Qed.

Lemma section_name_rule_witness :
  name_at (RadReport.extract (bs := Sample.library) Sample.report) 0
  = Some (PStr (lit "Findings")).
Proof.
  apply (@section_name_rule Sample.library Sample.report 0 Sample.findings).
  reflexivity.
Defined.

(** X4.  The section at position [i] of a document of
    [radreportconverter/converter.py] and of [fastapi_converter.py] has
    one question per [textarea] element below its element when there is
    one; otherwise one per [label] element with text when there is one;
    otherwise the one placeholder question.  It never has none.  In
    [src/converter.py] it has one question per [label] element, with or
    without text, and so possibly none. *)
Theorem questions_per_section
    (bs : BeautifulSoup) (soup : node) (i : nat) (section : node) :
  nth_error (sections_in soup) i = Some section ->
  let counted doc n :=
    exists sec questions,
      sections_of doc = Some sec
      /\ match nth_error sec i with
         | Some s => questions_of s
         | None => None
         end = Some questions
      /\ List.length questions = n in
  counted (Converter.extract soup) (List.length (labels_of section))
  /\ counted (RadReport.extract soup) (strategy_count section)
  /\ counted (FastApi.extract soup) (strategy_count section)
  /\ 1 <= strategy_count section.
Proof.
  intros H counted.
  assert (G : forall qp n,
             (forall name, List.length (qp name section) = n) ->
             counted (Extractor.extract qp soup) n).
  { intros qp n L. exists (Extractor.sections_pass qp soup).
    eexists. split; [reflexivity|].
    rewrite (sections_pass_at qp soup i H). split; [reflexivity|]. apply L. }
  assert (S : forall fallback name,
             List.length (Extractor.strategies fallback name section)
             = strategy_count section).
  { intros fallback name. rewrite strategies_closed. unfold strategy_count.
    destruct (textareas_of section) eqn:T.
    - destruct (filter has_text (labels_of section)) eqn:L; auto.
      now rewrite indexed_length.
    - now rewrite indexed_length. }
  repeat split.
  - apply G. intros name. rewrite converter_questions_closed.
    apply indexed_length.
  - apply G. intros name. apply S.
  - apply G. intros name. apply S.
  - unfold strategy_count. destruct (textareas_of section); simpl; [|lia].
    destruct (filter has_text (labels_of section)); simpl; lia.
Qed.

Lemma questions_per_section_witness :
  exists sec questions,
    sections_of (RadReport.extract (bs := Sample.library) Sample.report)
      = Some sec
    /\ match nth_error sec 1 with
       | Some s => questions_of s
       | None => None
       end = Some questions
    /\ List.length questions = 1.
Proof.
  apply (proj1 (proj2 (@questions_per_section Sample.library Sample.report 1
                         Sample.impression eq_refl))).
Defined.

(* ================================================================== *)
(** * Labels, nested sections and pages without fields *)
(* ================================================================== *)

Lemma lstrip_suffix (s : str) :
  exists spaces, s = spaces ++ lstrip s /\ forallb isspace spaces = true.
Proof.
  induction s as [|c s (spaces & E & B)]; cbn [lstrip].
  - exists []. auto.
  - destruct (isspace c) eqn:C.
    + exists (c :: spaces). cbn [forallb app]. rewrite C, B.
      split; [now f_equal | reflexivity].
    + exists []. auto.
Qed.

(** A trimmed string starts and ends with a character that is not white
    space. *)
Lemma strip_trimmed (s : str) : trimmed (strip s).
Proof.
  unfold trimmed, strip, rstrip. rewrite rev_involutive. split.
  - destruct (lstrip_suffix (rev (lstrip s))) as (spaces & E & _).
    apply (f_equal (@rev _)) in E. rewrite rev_involutive, rev_app_distr in E.
    destruct (rev (lstrip (rev (lstrip s)))) as [|c t]; auto.
    apply lstrip_head with (s := s) (t := t ++ rev spaces). exact E.
  - destruct (lstrip (rev (lstrip s))) as [|c t] eqn:L; auto.
    exact (lstrip_head _ L).
Qed.

Lemma descendants_trans (z y x : node) :
  In y (descendants z) -> In x (descendants y) -> In x (descendants z).
Proof.
  induction z as [s|s|name attrs contents IH] using node_induction;
    cbn [descendants]; try (intros []).
  intros Y X. apply in_flat_map in Y. destruct Y as (c & C & Y).
  apply in_flat_map. exists c. split; [exact C|]. right.
  rewrite Forall_forall in IH. destruct Y as [<-|Y]; auto.
Qed.

Lemma for_in_ext {A S : Type} (l : list A) (f g : S -> A -> S) (init : S) :
  (forall st x, In x l -> f st x = g st x) ->
  Extractor.for_in l init f = Extractor.for_in l init g.
Proof.
  unfold Extractor.for_in. revert init.
  induction l as [|x l IH]; intros init H; cbn [fold_left]; auto.
  rewrite H by now left. apply IH. intros st y I. apply H. now right.
Qed.

Lemma indexed_ext {A B : Type} (f g : nat -> A -> B) (i : nat) (l : list A) :
  (forall i x, f i x = g i x) -> indexed f i l = indexed g i l.
Proof.
  intros H. revert i. induction l as [|x l IH]; intros i; cbn [indexed]; auto.
  now rewrite H, IH.
Qed.

Section Section_facts.
Context {bs : BeautifulSoup}.

Lemma all_below_below (p : node -> bool) (inner outer : node) :
  below inner outer -> incl (all_below inner p) (all_below outer p).
Proof.
  intros B x I. unfold all_below in *. apply filter_In in I.
  destruct I as [I P]. apply filter_In. split; auto.
  now apply descendants_trans with inner.
Qed.

(** The question of a [textarea] element below a section. *)
Lemma textarea_has_a_question fallback (name : str) (section textarea : node) :
  In textarea (textareas_of section) ->
  exists q,
    In q (Extractor.strategies fallback name section)
    /\ field "element_id" q = Some (PStr (get_default textarea (lit "id") [])).
Proof.
  intros I. apply In_nth_error in I. destruct I as [i I].
  assert (NE : textareas_of section <> []).
  { intros E. rewrite E in I. destruct i; discriminate. }
  rewrite (@textarea_strategy bs fallback name section NE).
  eexists. split.
  - eapply nth_error_In. exact (indexed_nth _ 0 _ _ I).
  - reflexivity.
Qed.

Lemma form_type_of_analysis (filename : str) (soup : node) :
  dict_get (RadReport.structure_analysis filename soup) (lit "form_type")
  = Some (PStr (match textareas_of soup, labels_of soup with
                | _ :: _, _ => lit "textarea_based"
                | [], _ :: _ => lit "label_based"
                | [], [] => lit "section_only"
                end)).
Proof.
  unfold textareas_of, labels_of. rewrite <- !find_all_by_name.
  unfold RadReport.structure_analysis.
  destruct (find_all soup (lit "textarea") []);
    destruct (find_all soup (lit "label") []); reflexivity.
Qed.

Lemma resolved_name_not_empty (i : nat) (section : node) :
  has_name section = true -> truthy (resolved_at i section) = true.
Proof.
  unfold has_name, resolved_at, has_text.
  destruct (get section (lit "data-section-name")) as [[|c name]|];
    destruct (hd_error (headers_of section)); auto.
Qed.

Lemma strategies_agree (name : str) (section : node) :
  truthy name = true ->
  RadReport.questions name section = FastApi.questions name section.
Proof.
  intros T. unfold RadReport.questions, FastApi.questions.
  rewrite !strategies_closed.
  destruct (textareas_of section); [reflexivity|].
  apply indexed_ext. intros i x.
  unfold Extractor.textarea_question, RadReport.label_fallback,
    FastApi.label_fallback.
  now rewrite T.
Qed.

Lemma named_sections_agree (soup : node) :
  Forall (fun section => has_name section = true) (sections_in soup) ->
  RadReport.extract soup = FastApi.extract soup.
Proof.
  intros H. unfold RadReport.extract, FastApi.extract, Extractor.extract.
  do 4 f_equal. unfold Extractor.sections_pass. do 2 f_equal.
  apply for_in_ext. intros sections section I.
  rewrite find_all_by_name in I. rewrite Forall_forall in H.
  rewrite strategies_agree; [reflexivity|].
  rewrite resolve_name_at. apply resolved_name_not_empty. now apply H.
Qed.

End Section_facts.

(** X5.  In a section without [textarea] elements that has a [label]
    element with text, every question of
    [radreportconverter/converter.py] and of [fastapi_converter.py] is
    that of a [label]: its label is not empty and has no white space at
    either end, its answer is the empty string and its [field_type] is
    [LABEL]. *)
Theorem label_questions_are_trimmed
    (bs : BeautifulSoup) (name : str) (section : node) :
  textareas_of section = [] ->
  filter has_text (labels_of section) <> [] ->
  let of_labels questions :=
    Forall (fun q =>
      exists label,
        field "label" q = Some (PStr label)
        /\ label <> [] /\ trimmed label
        /\ field "answer" q = Some (PStr [])
        /\ field "field_type" q = Some (PStr (lit "LABEL"))) questions in
  of_labels (RadReport.questions name section)
  /\ of_labels (FastApi.questions name section).
Proof.
  intros T L of_labels.
  assert (G : forall fallback,
             of_labels (Extractor.strategies fallback name section)).
  { intros fallback. unfold of_labels. rewrite strategies_closed, T.
    destruct (filter has_text (labels_of section)) as [|l ls] eqn:E;
      [congruence|].
    rewrite <- E. apply indexed_Forall. intros i x I.
    apply filter_In in I. destruct I as [_ I].
    exists (strip (text x)). split; [reflexivity|]. split.
    - unfold has_text in I. intros Z. now rewrite Z in I.
    - split; [apply strip_trimmed|]. split; reflexivity. }
  split; apply G.
Qed.

Lemma label_questions_are_trimmed_witness :
  let bs := Sample.library in
  Forall (fun q =>
    exists label,
      field "label" q = Some (PStr label)
      /\ label <> [] /\ trimmed label
      /\ field "answer" q = Some (PStr [])
      /\ field "field_type" q = Some (PStr (lit "LABEL")))
    (RadReport.questions (lit "History") Sample.history).
Proof.
  intros bs.
  apply (@label_questions_are_trimmed Sample.library (lit "History")
           Sample.history).
  - reflexivity.
  - vm_compute. discriminate.
Defined.

(** X6.  A [section] element below another [section] element of the
    page is a section of the document too, and its [textarea] and
    [label] elements are also those of the enclosing section: a
    [textarea] below both gets a question in each of the two sections,
    in [radreportconverter/converter.py] and in [fastapi_converter.py]. *)
Theorem nested_sections
    (bs : BeautifulSoup) (soup outer inner : node) :
  In outer (sections_in soup) ->
  below inner outer ->
  is_tag (lit "section") inner = true ->
  In inner (sections_in soup)
  /\ incl (textareas_of inner) (textareas_of outer)
  /\ incl (labels_of inner) (labels_of outer)
  /\ (forall textarea inner_name outer_name,
        In textarea (textareas_of inner) ->
        let asked questions :=
          exists q,
            In q questions
            /\ field "element_id" q
               = Some (PStr (get_default textarea (lit "id") [])) in
        asked (RadReport.questions inner_name inner)
        /\ asked (RadReport.questions outer_name outer)
        /\ asked (FastApi.questions inner_name inner)
        /\ asked (FastApi.questions outer_name outer)).
Proof.
  intros O B S.
  assert (T : incl (textareas_of inner) (textareas_of outer))
    by now apply all_below_below.
  split; [|split; [exact T|split; [now apply all_below_below|]]].
  - unfold sections_in, all_below in *. apply filter_In in O.
    destruct O as [O _]. apply filter_In. split; auto.
    now apply descendants_trans with outer.
  - intros textarea inner_name outer_name I asked. unfold asked.
    repeat split; apply textarea_has_a_question; auto.
Qed.

Lemma nested_sections_witness :
  let bs := Sample.library in
  In Cases.inner (sections_in (Sample.document [Cases.outer]))
  /\ incl (textareas_of Cases.inner) (textareas_of Cases.outer).
Proof.
  intros bs.
  destruct (@nested_sections Sample.library (Sample.document [Cases.outer])
              Cases.outer Cases.inner) as (I & T & _).
  - vm_compute. auto.
  - vm_compute. auto.
  - reflexivity.
  - split; [exact I | exact T].
Defined.

(** X7.  When the analysis of a page says [section_only] (the page has
    no [textarea] and no [label] element), every section of the document
    that [radreportconverter/converter.py] and [fastapi_converter.py]
    extract from it has the placeholder question with its own name as
    the label, and no other. *)
Theorem section_only_pages
    (bs : BeautifulSoup) (filename : str) (soup : node) :
  dict_get (RadReport.structure_analysis filename soup) (lit "form_type")
  = Some (PStr (lit "section_only")) ->
  let placeholders doc :=
    exists secs,
      sections_of doc = Some secs
      /\ Forall (fun sec =>
           exists name,
             sec = PDict [ (lit "name", PStr name);
                           (lit "questions",
                             PList [ PDict [ (lit "id", PInt 0);
                                             (lit "label", PStr name);
                                             (lit "answer", PStr []);
                                             (lit "field_type",
                                               PStr (lit "SECTION")) ] ]) ])
           secs in
  placeholders (RadReport.extract soup)
  /\ placeholders (FastApi.extract soup).
Proof.
  rewrite form_type_of_analysis. intros F placeholders.
  assert (E : textareas_of soup = [] /\ labels_of soup = []).
  { destruct (textareas_of soup); [|discriminate F].
    destruct (labels_of soup); [auto | discriminate F]. }
  destruct E as [T L].
  assert (G : forall fallback,
             placeholders (Extractor.extract (Extractor.strategies fallback) soup)).
  { intros fallback.
    exists (Extractor.sections_pass (Extractor.strategies fallback) soup).
    split; [reflexivity|]. apply Forall_forall. intros sec I.
    destruct (sections_pass_source _ soup sec I) as (i & section & N & _ & ->).
    exists (resolved_at i section). do 3 f_equal.
    assert (B : below section soup).
    { apply nth_error_In in N. unfold sections_in, all_below in N.
      apply filter_In in N. apply N. }
    rewrite fallback_strategy; [reflexivity| |].
    - pose proof (@all_below_below (is_tag (lit "textarea")) section soup B) as S.
      fold (textareas_of section) (textareas_of soup) in S. rewrite T in S.
      destruct (textareas_of section) as [|x xs]; auto.
      elim (S x). now left.
    - pose proof (@all_below_below (is_tag (lit "label")) section soup B) as S.
      fold (labels_of section) (labels_of soup) in S. rewrite L in S.
      destruct (labels_of section) as [|x xs]; auto.
      elim (S x). now left. }
  split; apply G.
Qed.

Lemma section_only_pages_witness :
  exists secs,
    sections_of (RadReport.extract (bs := Sample.library) Cases.prose)
      = Some secs
    /\ Forall (fun sec =>
         exists name,
           sec = PDict [ (lit "name", PStr name);
                         (lit "questions",
                           PList [ PDict [ (lit "id", PInt 0);
                                           (lit "label", PStr name);
                                           (lit "answer", PStr []);
                                           (lit "field_type",
                                             PStr (lit "SECTION")) ] ]) ])
         secs.
Proof.
  apply (@section_only_pages Sample.library (lit "prose.html") Cases.prose).
  reflexivity.
Defined.

(** X8.  On a page whose sections all get a name that is not empty (an
    attribute that is not empty, else a [header] with text, else no
    [header] at all), [radreportconverter/converter.py] and
    [fastapi_converter.py] extract the same document. *)
Theorem command_line_and_http_agree (bs : BeautifulSoup) (soup : node) :
  Forall (fun section => has_name section = true) (sections_in soup) ->
  RadReport.extract soup = FastApi.extract soup.
Proof. apply named_sections_agree. Qed.

Lemma command_line_and_http_agree_witness :
  RadReport.extract (bs := Sample.library) Cases.prose
  = FastApi.extract (bs := Sample.library) Cases.prose.
Proof.
  apply (@command_line_and_http_agree Sample.library Cases.prose).
  repeat constructor.
Defined.

(* ================================================================== *)
(** * Files in and out *)
(* ================================================================== *)

Lemma startswith_inv (x p : str) :
  startswith x p = true -> exists t, x = p ++ t.
Proof.
  revert x. induction p as [|c p IH]; intros x.
  - exists x. reflexivity.
  - destruct x as [|d x]; cbn [startswith]; [discriminate|].
    rewrite andb_true_iff, N.eqb_eq. intros [-> H].
    destruct (IH x H) as [t ->]. exists t. reflexivity.
Qed.

Lemma startswith_app (p t : str) : startswith (p ++ t) p = true.
Proof.
  induction p as [|c p IH]; [now destruct t|].
  change (N.eqb c c && startswith (p ++ t) p = true).
  now rewrite N.eqb_refl, IH.
Qed.

Lemma endswith_inv (s suffix : str) :
  endswith s suffix = true -> exists p, s = p ++ suffix.
Proof.
  unfold endswith. intros H. destruct (startswith_inv _ _ H) as [t E].
  exists (rev t). apply (f_equal (@rev _)) in E.
  now rewrite rev_involutive, rev_app_distr, rev_involutive in E.
Qed.

Lemma endswith_app (a b : str) : endswith (a ++ b) b = true.
Proof. unfold endswith. rewrite rev_app_distr. apply startswith_app. Qed.

Lemma endswith_longer (a b suffix : str) :
  endswith b suffix = true -> endswith (a ++ b) suffix = true.
Proof.
  intros H. destruct (endswith_inv _ _ H) as [p ->].
  rewrite app_assoc. apply endswith_app.
Qed.

Lemma endswith_join (a b suffix : str) :
  endswith b suffix = true -> endswith (Os.join a b) suffix = true.
Proof.
  intros H. unfold Os.join. destruct (startswith b (lit "/")); auto.
  destruct (negb (truthy a) || endswith a (lit "/"));
    [|rewrite app_assoc]; now apply endswith_longer.
Qed.

Lemma json_is_not_html (path : str) :
  endswith path (lit ".json") = true -> endswith path (lit ".html") = false.
Proof.
  unfold endswith. intros J.
  destruct (startswith_inv _ _ J) as [t ->].
  reflexivity.
Qed.

(** The occurrence of [.html] at the end of a name is replaced, whatever
    was replaced before it. *)
Lemma replace_from_tail (p : str) :
  forall skip, skip <= List.length p ->
  exists r,
    replace_from (lit ".html") (lit ".json") skip (p ++ lit ".html")
    = r ++ lit ".json".
Proof.
  induction p as [|c p IH]; intros skip L.
  - exists []. destruct skip; [reflexivity | cbn in L; lia].
  - cbn [app replace_from]. destruct skip as [|k].
    + destruct (startswith (c :: p ++ lit ".html") (lit ".html")) eqn:E.
      * assert (F : 4 <= List.length p).
        { destruct (startswith_inv _ _ E) as [t T].
          change (lit ".html") with [46; 104; 116; 109; 108]%N in T.
          destruct p as [|c1 [|c2 [|c3 [|c4 p]]]]; cbn [app] in T;
            try discriminate T.
          cbn [List.length]. lia. }
        destruct (IH 4 F) as [r R].
        exists (lit ".json" ++ r). rewrite <- app_assoc. f_equal. exact R.
      * destruct (IH 0 (Nat.le_0_l _)) as [r R].
        exists (c :: r). cbn [app]. f_equal. exact R.
    + cbn [List.length] in L. apply IH. lia.
Qed.

Lemma file_at_store_other (s : Os.fs) (p q : str) (content : bytes) :
  p <> q -> Os.file_at (Os.store s p content) q = Os.file_at s q.
Proof.
  intros N. induction s as [|[p' c'] s IH]; cbn [Os.store Os.file_at].
  - apply eqb_neq in N. now rewrite N.
  - destruct (eqb p' p) eqn:E; cbn [Os.file_at].
    + apply eqb_eq in E. subst p'. apply eqb_neq in N. now rewrite N.
    + destruct (eqb p' q); auto.
Qed.

Lemma filter_split_length {A : Type} (p : A -> bool) (l : list A) :
  List.length (filter p l) + List.length (filter (fun x => negb (p x)) l)
  = List.length l.
Proof.
  induction l as [|x l IH]; cbn [filter List.length]; auto.
  destruct (p x); cbn [negb List.length]; lia.
Qed.

Section File_facts.
Context {bs : BeautifulSoup} {proc : Os.Process}.
Import Os Files.

Lemma read_html_outcome (s : fs) (filename : str) :
  read_html filename s
  = (s, match outcome (fun soup => PNone) s filename with
        | Ok _ =>
            match text_at s filename with
            | Some html_content => Ok html_content
            | None => Raise (FileNotFoundError [])
            end
        | Raise e => Raise e
        end).
Proof.
  unfold outcome, text_at, beside_module.
  destruct (file_at s (absolute (join script_dir filename))) as [content|] eqn:F.
  - destruct (forallb isspace (decoded content)) eqn:B.
    + now rewrite (read_html_blank _ _ F B).
    + rewrite (read_html_ok _ _ F); auto. unfold blank. congruence.
  - now rewrite (read_html_missing _ _ F).
Qed.

Lemma convert_outcome (extract : node -> pyval) (s : fs) (filename : str) :
  bind (read_html filename) (fun html_content =>
    ret (extract (html_parser html_content))) s
  = (s, outcome extract s filename).
Proof.
  unfold bind. rewrite read_html_outcome. unfold outcome.
  destruct (text_at s filename) as [t|]; [|reflexivity].
  destruct (forallb isspace t); reflexivity.
Qed.

(** The analysis returns for every file name and changes nothing. *)
Lemma analyze_html_structure_returns (filename : str) (s : fs) :
  RadReport.analyze_html_structure filename s
  = (s, Ok match text_at s filename with
           | Some html_content =>
               PDict (RadReport.structure_analysis filename
                        (html_parser html_content))
           | None =>
               PDict [(lit "error",
                       PStr (lit "File '" ++ filename ++ lit "' not found"))]
           end).
Proof.
  unfold RadReport.analyze_html_structure, bind, exists_, read_text, text_at,
    beside_module.
  destruct (file_at s (absolute (join script_dir filename))) eqn:F; simpl.
  - now rewrite F.
  - reflexivity.
Qed.

(** A loop whose body counts each element as a success or as a failure,
    and keeps what [kept] says of the files. *)
Lemma tallying_loop (kept : fs -> Prop) (ok : str -> bool)
    (body : nat * nat -> str -> M (nat * nat)) (l : list str) :
  (forall a b x s, In x l -> kept s ->
     exists s', body (a, b) x s
                = (s', Ok (if ok x then (S a, b) else (a, S b)))
                /\ kept s') ->
  forall a b s, kept s ->
  exists s',
    for_each l (a, b) body s
    = (s', Ok (a + List.length (filter ok l),
               b + List.length (filter (fun f => negb (ok f)) l)))
    /\ kept s'.
Proof.
  induction l as [|x l IH]; intros B a b s K; cbn [for_each filter List.length].
  - exists s. rewrite !Nat.add_0_r. auto.
  - destruct (B a b x s (or_introl eq_refl) K) as (s1 & E & K1).
    unfold bind. rewrite E.
    assert (B' : forall a b y s, In y l -> kept s ->
              exists s', body (a, b) y s
                         = (s', Ok (if ok y then (S a, b) else (a, S b)))
                         /\ kept s').
    { intros a' b' y s0 I. apply B. now right. }
    destruct (ok x); cbn [negb List.length].
    + destruct (IH B' (S a) b s1 K1) as (s2 & E2 & K2).
      exists s2. rewrite E2. split; auto. do 3 f_equal; lia.
    + destruct (IH B' a (S b) s1 K1) as (s2 & E2 & K2).
      exists s2. rewrite E2. split; auto. do 3 f_equal; lia.
Qed.

Lemma html_files_end_in_html (s : fs) (f : str) :
  In f (html_files s) -> endswith f (lit ".html") = true.
Proof.
  unfold html_files, html_files_of. cbn [listdir snd].
  intros I. apply filter_In in I. apply I.
Qed.

Lemma output_name_tail (html_filename : str) :
  endswith html_filename (lit ".html") = true ->
  endswith (output_name html_filename) (lit ".json") = true.
Proof.
  intros H. destruct (endswith_inv _ _ H) as [p ->].
  unfold output_name, replace.
  destruct (replace_from_tail p (Nat.le_0_l _)) as [r ->].
  apply endswith_app.
Qed.

Lemma converter_batch_body (s0 : fs) (a b : nat) (x : str) (s : fs) :
  endswith x (lit ".html") = true ->
  pages_kept s0 s ->
  exists s',
    try_except
      (bind (Converter.convert_html_to_json x) (fun result =>
         bind (Converter.save_json_output result
                 (Some (replace x (lit ".html") (lit ".json"))))
           (fun _ => ret (S a, b))))
      (fun e => ret (a, S b)) s
    = (s', Ok (if converted s0 x then (S a, b) else (a, S b)))
    /\ pages_kept s0 s'.
Proof.
  intros H K.
  assert (T : text_at s x = text_at s0 x).
  { unfold text_at. rewrite (K (beside_module x)); auto.
    unfold beside_module, absolute. now apply endswith_join, endswith_join. }
  unfold try_except, bind at 1. unfold Converter.convert_html_to_json.
  rewrite (convert_outcome Converter.extract). unfold outcome, converted.
  rewrite T. destruct (text_at s0 x) as [t|]; [|exists s; auto].
  destruct (forallb isspace t); [exists s; auto|]. cbn [negb andb].
  unfold bind, Converter.save_json_output, write_chunks, writable.
  destruct (encode_chunks (Json.iterencode 0 (Converter.extract (html_parser t))))
    as [content w].
  eexists. split.
  - destruct w; reflexivity.
  - intros path P. rewrite <- (K path P). apply file_at_store_other.
    intros <-.
    assert (J : endswith (absolute (replace x (lit ".html") (lit ".json")))
                  (lit ".json") = true).
    { unfold absolute. apply endswith_join. now apply output_name_tail. }
    apply json_is_not_html in J. congruence.
Qed.

Lemma converter_batch (s : fs) :
  exists s',
    Converter.convert_all_html_files s = (s', Ok (tally (converted s) (html_files s)))
    /\ pages_kept s s'.
Proof.
  pose proof (html_files_end_in_html s) as HF.
  unfold Converter.convert_all_html_files, tally, html_files in *.
  unfold bind at 1. unfold listdir in *. cbv beta iota in *. cbn [snd] in *.
  match goal with
  | |- context [html_files_of ?entries] => set (l := html_files_of entries) in *
  end.
  destruct l as [|f fs0] eqn:E.
  - exists s. split; [reflexivity | intros path _; reflexivity].
  - rewrite <- E in *. unfold bind at 1.
    match goal with
    | |- context [for_each l (O, O) ?body s] =>
        destruct (@tallying_loop (pages_kept s) (converted s) body l) with
          (a := O) (b := O) (s := s) as (s' & L & K);
        [ | | exists s'; split; [rewrite L|exact K] ]
    end.
    + intros a b x s1 I K1. apply converter_batch_body; auto.
    + intros path _. reflexivity.
    + rewrite E. reflexivity.
Qed.

Lemma radreport_batch_body (a b : nat) (x : str) (s : fs) :
  try_except
    (bind (RadReport.convert_html_to_json x) (fun result =>
       bind (RadReport.save_json_output result
               (replace x (lit ".html") (lit ".json")))
         (fun _ => ret (S a, b))))
    (fun e => ret (a, S b)) s
  = (s, Ok (if reported s x then (S a, b) else (a, S b))).
Proof.
  unfold try_except, bind at 1. unfold RadReport.convert_html_to_json.
  rewrite (convert_outcome RadReport.extract). unfold outcome, reported.
  destruct (text_at s x) as [t|]; [|reflexivity].
  destruct (forallb isspace t); [reflexivity|]. cbn [negb andb].
  unfold bind. rewrite radreport_save_json_output.
  unfold present, output_name, beside_module.
  destruct (file_at s _); reflexivity.
Qed.

Lemma analysis_loop (l : list str) (s : fs) :
  for_each l tt (fun _ html_file =>
    bind (RadReport.analyze_html_structure html_file) (fun _ => ret tt)) s
  = (s, Ok tt).
Proof.
  induction l as [|x l IH]; cbn [for_each]; [reflexivity|].
  unfold bind at 1. unfold bind at 1.
  rewrite analyze_html_structure_returns. exact IH.
Qed.

End File_facts.

(* ================================================================== *)
(** * Conversions, batches and the endpoint *)
(* ================================================================== *)






(** X14.  The batch of [src/converter.py] leaves every file whose path
    ends in [.html] as it is: no page is overwritten by an output. *)
Theorem converter_batch_keeps_pages
    (bs : BeautifulSoup) (proc : Os.Process) (s : Os.fs) (path : str) :
  endswith path (lit ".html") = true ->
  Os.file_at (fst (Converter.convert_all_html_files s)) path
  = Os.file_at s path.
Proof.
  intros H. destruct (converter_batch s) as (s' & E & K).
  rewrite E. now apply K.
Qed.

Lemma converter_batch_keeps_pages_witness :
  Os.file_at
    (fst (Converter.convert_all_html_files (bs := Sample.library)
            (proc := Sample.process) Sample.disk))
    (lit "/app/report.html")
  = Os.file_at Sample.disk (lit "/app/report.html").
Proof.
  apply (@converter_batch_keeps_pages Sample.library Sample.process
           Sample.disk (lit "/app/report.html")).
  reflexivity.
Defined.

(** X15.  The output name of a file whose name ends in [.html] (the
    name with every [.html] replaced by [.json]) ends in [.json], and so
    not in [.html]. *)
Theorem output_name_ends_in_json (html_filename : str) :
  endswith html_filename (lit ".html") = true ->
  let output_name := replace html_filename (lit ".html") (lit ".json") in
  endswith output_name (lit ".json") = true
  /\ endswith output_name (lit ".html") = false.
Proof.
  intros H output_name.
  assert (J : endswith output_name (lit ".json") = true)
    by now apply output_name_tail.
  split; [exact J | now apply json_is_not_html].
Qed.

Lemma output_name_ends_in_json_witness :
  endswith (replace (lit "a.html.html") (lit ".html") (lit ".json"))
    (lit ".json") = true
  /\ endswith (replace (lit "a.html.html") (lit ".html") (lit ".json"))
       (lit ".html") = false.
Proof.
  apply (@output_name_ends_in_json (lit "a.html.html")). reflexivity.
Defined.



(* ================================================================== *)
(** * The analysis and the conversion; the two interfaces *)
(* ================================================================== *)

Lemma collecting_loop {A B : Type} (g : A -> B) (l : list A) (acc : list B) :
  Extractor.for_in l acc (fun collected x => collected ++ [g x])
  = acc ++ map g l.
Proof.
  unfold Extractor.for_in. revert acc.
  induction l as [|x l IH]; intros acc; cbn [fold_left map].
  - now rewrite app_nil_r.
  - rewrite IH, <- app_assoc. reflexivity.
Qed.

(** The entries of [sections_details], one per [section] element. *)
Lemma sections_details_of_analysis {bs : BeautifulSoup}
    (filename : str) (soup : node) :
  dict_get (RadReport.structure_analysis filename soup) (lit "sections_details")
  = Some (PList (map (fun section =>
                        PDict [ (lit "name", PStr (analysed_name section));
                                (lit "textareas",
                                  PInt (Z.of_nat (List.length
                                                    (textareas_of section))));
                                (lit "labels",
                                  PInt (Z.of_nat (List.length
                                                    (labels_of section)))) ])
                     (sections_in soup))).
Proof.
  unfold sections_in, textareas_of, labels_of.
  rewrite <- find_all_by_name.
  match goal with
  | |- _ = Some (PList (map ?g ?l)) =>
      pose proof (collecting_loop g l []) as C; cbn [app] in C; rewrite <- C
  end.
  unfold RadReport.structure_analysis.
  set (sections_info := Extractor.for_in _ _ _) at 1.
  match goal with
  | |- _ = ?r => change (Some (PList sections_info) = r)
  end.
  subst sections_info. do 2 f_equal. apply for_in_ext. intros st x _. do 4 f_equal.
  - unfold analysed_name, find, headers_of. rewrite <- find_all_by_name.
    destruct (get x (lit "data-section-name")) as [[|c name]|]; reflexivity.
  - now rewrite <- !find_all_by_name.
Qed.

(** X17.  The entry at position [i] of [sections_details] in the
    analysis of a page is that of the [section] element at position [i]:
    the numbers of [textarea] and [label] elements below it, and its
    name, which is the name the conversion gives the section when the
    element has a [data-section-name] attribute that is not empty or a
    [header] element below it, and ["Unnamed"] otherwise (where the
    conversion says ["Section N"]). *)
Theorem analysis_entry_of_a_section
    (bs : BeautifulSoup) (filename : str) (soup : node)
    (i : nat) (section : node) :
  nth_error (sections_in soup) i = Some section ->
  let count (l : list node) := PInt (Z.of_nat (List.length l)) in
  let name :=
    match get section (lit "data-section-name") with
    | Some (c :: attribute) => c :: attribute
    | _ =>
        match hd_error (headers_of section) with
        | Some header => strip (text header)
        | None => lit "Unnamed"
        end
    end in
  exists details,
    dict_get (RadReport.structure_analysis filename soup)
      (lit "sections_details") = Some (PList details)
    /\ nth_error details i
       = Some (PDict [ (lit "name", PStr name);
                       (lit "textareas", count (textareas_of section));
                       (lit "labels", count (labels_of section)) ])
    /\ match get section (lit "data-section-name"),
             hd_error (headers_of section) with
       | Some (_ :: _), _ | _, Some _ =>
           name_at (RadReport.extract soup) i = Some (PStr name)
       | _, None =>
           name_at (RadReport.extract soup) i
           = Some (PStr (lit "Section " ++ str_of_nat (i + 1)))
       end.
Proof.
  intros H count name. eexists. split; [apply sections_details_of_analysis|].
  split.
  - now rewrite (map_nth_error _ _ _ H).
  - assert (G : name_at (RadReport.extract soup) i
                 = Some (PStr (resolved_at i section))).
    { unfold name_at, RadReport.extract. rewrite sections_of_extract.
      now rewrite (sections_pass_at RadReport.questions soup i H). }
    rewrite G. unfold name, resolved_at.
    destruct (get section (lit "data-section-name")) as [[|c attribute]|];
      destruct (hd_error (headers_of section)); reflexivity.
Qed.

Lemma analysis_entry_of_a_section_witness :
  let bs := Sample.library in
  exists details,
    dict_get (RadReport.structure_analysis (lit "report.html") Sample.report)
      (lit "sections_details") = Some (PList details)
    /\ nth_error details 1
       = Some (PDict [ (lit "name", PStr (lit "Unnamed"));
                       (lit "textareas", PInt 0);
                       (lit "labels", PInt 0) ])
    /\ name_at (RadReport.extract Sample.report) 1
       = Some (PStr (lit "Section 2")).
Proof.
  intros bs.
  exact (@analysis_entry_of_a_section Sample.library (lit "report.html")
           Sample.report 1 Sample.impression eq_refl).
Defined.


